(** * HaHaHash: the payment verifier and the metered chat handlers

    A shallow embedding of [src/utils.py] ([verify_payment]) and of
    [src/bot.py] (the SQLite ledger, the usage counter and the four
    Telegram handlers), followed by the properties of the specification
    that concern them.

    Everything that lives outside the repository is gathered in one record,
    [env]: the answers of the Solana RPC endpoint and of the language
    model, the database clock, the configured receiving address and the
    handful of interpreter and driver primitives whose full behaviour is
    not written in the repository.  All statements are quantified over
    that record. *)

From Stdlib Require Import ZArith List String Ascii Bool Lia SpecFloat.
From Stdlib Require Import Permutation Sorted.
Import ListNotations.

Open Scope Z_scope.
Open Scope string_scope.

Set Warnings "-register-all".

(** ** Python values, exceptions and the built-ins the sources rely on *)

Module Python.

(** The exceptions that can cross the modelled code.  [OtherError] stands
    for an exception class raised by an external library (the HTTP client,
    the JSON decoder, the model client, the database driver). *)
Inductive exn : Type :=
| AttributeError
| TypeError
| ValueError
| OverflowError
| KeyError (key : string)
| IntegrityError
| OtherError (cls msg : string).

Inductive result (A : Type) : Type :=
| Ok (a : A)
| Raise (e : exn).

Arguments Ok {A} a.
Arguments Raise {A} e.

Definition bind {A B : Type} (c : result A) (k : A -> result B) : result B :=
  match c with
  | Ok a => k a
  | Raise e => Raise e
  end.

Notation "x <- c ;; k" := (bind c (fun x => k))
  (at level 61, c at next level, right associativity).

(** A Python [float] is an IEEE 754 binary64 number. *)
Definition prec : Z := 53.
Definition emax : Z := 1024.

(** The values [json.loads] and [response.json()] produce.  A [JObj] lists
    the items of a [dict], whose keys are pairwise distinct; [assoc] finds
    the value bound to a key. *)
Inductive json : Type :=
| JNull
| JBool (b : bool)
| JInt (z : Z)
| JFloat (f : spec_float)
| JStr (s : string)
| JArr (items : list json)
| JObj (fields : list (string * json)).

Fixpoint assoc (k : string) (fields : list (string * json)) : option json :=
  match fields with
  | [] => None
  | (k', v) :: rest => if String.eqb k k' then Some v else assoc k rest
  end.

(** [d.get(k, default)]: only a [dict] has the method. *)
Definition dict_get (d : json) (k : string) (default : json) : result json :=
  match d with
  | JObj fields =>
      Ok (match assoc k fields with Some v => v | None => default end)
  | _ => Raise AttributeError
  end.

(** [d[k]] with a [str] key. *)
Definition getitem (d : json) (k : string) : result json :=
  match d with
  | JObj fields =>
      match assoc k fields with
      | Some v => Ok v
      | None => Raise (KeyError k)
      end
  | _ => Raise TypeError
  end.

(** Truth value testing ([if v:], [not v]). *)
Definition truthy (v : json) : bool :=
  match v with
  | JNull => false
  | JBool b => b
  | JInt z => negb (Z.eqb z 0)
  | JFloat (S754_zero _) => false
  | JFloat _ => true
  | JStr s => negb (String.eqb s "")
  | JArr items => match items with [] => false | _ => true end
  | JObj fields => match fields with [] => false | _ => true end
  end.

(** [v == s] for a [str] [s]: values of another type compare unequal. *)
Definition eq_str (v : json) (s : string) : bool :=
  match v with
  | JStr s' => String.eqb s' s
  | _ => false
  end.

(** [for x in v]: a list yields its items, a dict its keys, a string its
    characters; nothing else is iterable. *)
Definition iter (v : json) : result (list json) :=
  match v with
  | JArr items => Ok items
  | JObj fields => Ok (map (fun kv => JStr (fst kv)) fields)
  | JStr s => Ok (map (fun c => JStr (String c "")) (list_ascii_of_string s))
  | _ => Raise TypeError
  end.

(** [int(f)] for a float: truncation towards zero. *)
Definition float_trunc (f : spec_float) : result Z :=
  match f with
  | S754_zero _ => Ok 0
  | S754_infinity _ => Raise OverflowError
  | S754_nan => Raise ValueError
  | S754_finite s m e =>
      let a := if Z.leb 0 e then Zpos m * 2 ^ e else Zpos m / 2 ^ (- e) in
      Ok (if s then - a else a)
  end.

(** [float(z)] for an [int]: rounding to nearest even, [OverflowError] when
    the integer is too large for a binary64. *)
Definition float_of_int (z : Z) : result spec_float :=
  match binary_normalize prec emax z 0 false with
  | S754_infinity _ => Raise OverflowError
  | f => Ok f
  end.

(** [z / d] for an [int] [z] and a non-zero [float] [d]. *)
Definition truediv (z : Z) (d : spec_float) : result spec_float :=
  f <- float_of_int z ;; Ok (SFdiv prec emax f d).

(** The literals [1e9] and [0.001]. *)
Definition float_1e9 : spec_float := S754_finite false 8388608000000000 (-23).
Definition float_0_001 : spec_float := S754_finite false 4611686018427388 (-62).

(** [str.isspace] and [str.isalnum] on one character.  A [string] is a
    sequence of characters with code points below 256. *)
Definition isspace_char (c : ascii) : bool :=
  let n := N.to_nat (N_of_ascii c) in
  ((9 <=? n) && (n <=? 13) || (28 <=? n) && (n <=? 32)
   || (n =? 133) || (n =? 160))%nat.

Definition isalnum_char (c : ascii) : bool :=
  let n := N.to_nat (N_of_ascii c) in
  ((48 <=? n) && (n <=? 57) || (65 <=? n) && (n <=? 90)
   || (97 <=? n) && (n <=? 122)
   || (n =? 170) || (n =? 178) || (n =? 179) || (n =? 181) || (n =? 185)
   || (n =? 186) || (188 <=? n) && (n <=? 190)
   || (192 <=? n) && (n <=? 214) || (216 <=? n) && (n <=? 246)
   || (248 <=? n) && (n <=? 255))%nat.

(** [s.isalnum()]: every character is alphanumeric and there is at least
    one. *)
Definition isalnum (s : string) : bool :=
  negb (String.eqb s "") && forallb isalnum_char (list_ascii_of_string s).

Fixpoint lstrip (s : string) : string :=
  match s with
  | EmptyString => EmptyString
  | String c s' => if isspace_char c then lstrip s' else s
  end.

Fixpoint rstrip (s : string) : string :=
  match s with
  | EmptyString => EmptyString
  | String c s' =>
      let r := rstrip s' in
      if isspace_char c && String.eqb r "" then EmptyString else String c r
  end.

(** [s.strip()] *)
Definition strip (s : string) : string := rstrip (lstrip s).

(** [s.replace(old, "")] for a non-empty [old]: the occurrences of [old]
    are removed from left to right, without overlap.  [skip] counts the
    characters of the current occurrence still to drop. *)
Fixpoint remove_from (old : string) (skip : nat) (s : string) : string :=
  match s with
  | EmptyString => EmptyString
  | String c s' =>
      match skip with
      | S k => remove_from old k s'
      | O =>
          if String.prefix old s
          then remove_from old (Nat.pred (String.length old)) s'
          else String c (remove_from old O s')
      end
  end.

Definition remove_all (old s : string) : string := remove_from old O s.

(** The line feed. *)
Definition LF : string := String (ascii_of_nat 10) EmptyString.

End Python.

Export Python.

(** ** The persisted schema ([create_tables])

    One record per relation; a table is the list of its rows in rowid order.
    The three AUTOINCREMENT tables carry their [sqlite_sequence] counter.
    A nullable column bound from a Python value is an [option]. *)

Record user_row : Type := {
  user_id : Z;                      (* id INTEGER PRIMARY KEY *)
  user_telegram_id : Z;             (* telegram_id INTEGER UNIQUE *)
  user_name : string;               (* name TEXT *)
  user_message_count : Z            (* message_count INTEGER DEFAULT 0 *)
}.

Record message_row : Type := {
  message_id : Z;
  message_user_id : option Z;
  message_text : option string;
  message_role : string;
  message_timestamp : Z
}.

Record wallet_row : Type := {
  wallet_id : Z;
  wallet_user_id : option Z;        (* user_id INTEGER UNIQUE *)
  wallet_address : string
}.

Record payment_row : Type := {
  payment_id : Z;
  payment_user_id : option Z;
  payment_transaction_id : option string;   (* transaction_id TEXT UNIQUE *)
  payment_amount : spec_float;
  payment_status : string;
  payment_timestamp : Z
}.

Record db : Type := {
  users : list user_row;
  messages : list message_row;
  wallets : list wallet_row;
  payments : list payment_row;
  seq_messages : Z;
  seq_wallets : Z;
  seq_payments : Z
}.

(** ** The outside world *)

(** One HTTP answer of the RPC endpoint: the status code, the raw text and
    what [response.json()] yields. *)
Record response : Type := {
  status_code : Z;
  text : string;
  json_body : result json
}.

(** The two JSON-RPC calls of [verify_payment]. *)
Inductive request : Type :=
| GetSignaturesForAddress (address : string) (limit : Z)
| GetTransaction (signature : json) (encoding : string).

Record env : Type := {
  (** [requests.post] on the RPC endpoint *)
  rpc_post : request -> result response;
  (** [model.generate_content(prompt).text] *)
  generate_content : string -> result string;
  (** the environment variable [CRYPTO_WALLET_ADDRESS] *)
  CRYPTO_WALLET_ADDRESS : string;
  (** [CURRENT_TIMESTAMP] when a row is inserted into the given state *)
  current_timestamp : db -> Z;
  (** [int(s)] for a [str] *)
  int_of_str : string -> result Z;
  (** [json.loads] *)
  json_loads : string -> result json;
  (** [str(e)] *)
  str_of_exn : exn -> string;
  (** [s.capitalize()] *)
  capitalize : string -> string;
  (** what the driver stores in a TEXT column for a parameter that is
      neither a [str] nor [None] ([None] here is SQL NULL) *)
  sqlite_text : json -> result (option string)
}.

(** [int(v)] *)
Definition py_int (E : env) (v : json) : result Z :=
  match v with
  | JInt z => Ok z
  | JBool b => Ok (if b then 1 else 0)
  | JFloat f => float_trunc f
  | JStr s => int_of_str E s
  | _ => Raise TypeError
  end.

(** ** [src/utils.py]: the payment verifier *)

Module utils.

Section VerifyPayment.

Variable E : env.
Variables receiving_wallet sender_wallet : string.
Variable expected_amount : spec_float.

(** [parsed.get("info", {})] *)
Definition parsed_info (parsed : json) : result json :=
  dict_get parsed "info" (JObj []).

(** The body of the inner loop: does this instruction make
    [verify_payment] return? *)
Definition instruction_matches (instruction : json) : result bool :=
  parsed <- dict_get instruction "parsed" (JObj []) ;;
  if truthy parsed then
    info <- parsed_info parsed ;;
    destination <- dict_get info "destination" JNull ;;
    if eq_str destination receiving_wallet then
      info <- parsed_info parsed ;;
      source <- dict_get info "source" JNull ;;
      info <- parsed_info parsed ;;
      raw <- dict_get info "lamports" (JInt 0) ;;
      lamports <- py_int E raw ;;
      amount_received <- truediv lamports float_1e9 ;;
      Ok (eq_str source sender_wallet && SFeqb amount_received expected_amount)
    else Ok false
  else Ok false.

(** [for instruction in instructions: ...]; [true] when the loop returns. *)
Fixpoint scan_instructions (instructions : list json) : result bool :=
  match instructions with
  | [] => Ok false
  | instruction :: rest =>
      m <- instruction_matches instruction ;;
      if m then Ok true else scan_instructions rest
  end.

(** [txn_data.get("transaction", {}).get("message", {}).get("instructions", [])] *)
Definition transaction_instructions (txn_data : json) : result json :=
  t <- dict_get txn_data "transaction" (JObj []) ;;
  m <- dict_get t "message" (JObj []) ;;
  dict_get m "instructions" (JArr []).

(** [for txn in transactions: ...] followed by the final [return None]. *)
Fixpoint scan_transactions (transactions : list json) : result json :=
  match transactions with
  | [] => Ok JNull
  | txn :: rest =>
      signature <- getitem txn "signature" ;;
      txn_response <- rpc_post E (GetTransaction signature "jsonParsed") ;;
      if negb (Z.eqb (status_code txn_response) 200) then scan_transactions rest
      else
        body <- json_body txn_response ;;
        txn_data <- dict_get body "result" (JObj []) ;;
        if negb (truthy txn_data) then scan_transactions rest
        else
          instructions <- transaction_instructions txn_data ;;
          l <- iter instructions ;;
          found <- scan_instructions l ;;
          if found then Ok signature else scan_transactions rest
  end.

(** [verify_payment(receiving_wallet, sender_wallet, expected_amount)];
    [None] is [JNull]. *)
Definition verify_payment : result json :=
  response <- rpc_post E (GetSignaturesForAddress sender_wallet 20) ;;
  if negb (Z.eqb (status_code response) 200) then Ok JNull
  else
    body <- json_body response ;;
    transactions <- dict_get body "result" (JArr []) ;;
    l <- iter transactions ;;
    scan_transactions l.

End VerifyPayment.

(** *** [fetch_memes] *)

Section FetchMemes.

(** [requests.get(url, params=...)] on the Tenor search endpoint, and the
    environment variable [TENOR_API_KEY] (a [str], or [None] when unset). *)
Variable http_get : string -> list (string * json) -> result response.
Variable TENOR_API_KEY : json.

(** [v[0]]: the first item of a list, the first character of a string;
    [IndexError] on an empty one, [KeyError] on a dict (whose keys are
    strings), [TypeError] on anything else. *)
Definition first_item (v : json) : result json :=
  match v with
  | JArr [] => Raise (OtherError "IndexError" "list index out of range")
  | JArr (x :: _) => Ok x
  | JStr EmptyString => Raise (OtherError "IndexError" "string index out of range")
  | JStr (String c _) => Ok (JStr (String c EmptyString))
  | JObj _ => Raise (OtherError "KeyError" "0")
  | _ => Raise TypeError
  end.

(** The dict built for one entry of [results]. *)
Definition meme (item : json) : result json :=
  description <- dict_get item "content_description" (JStr "No description") ;;
  media <- dict_get item "media" (JArr [JObj []]) ;;
  first <- first_item media ;;
  gif <- dict_get first "gif" (JObj []) ;;
  url <- dict_get gif "url" (JStr "No GIF URL available") ;;
  Ok (JObj [("description", description); ("gifUrl", url)]).

(** The list comprehension. *)
Fixpoint memes (items : list json) : result (list json) :=
  match items with
  | [] => Ok []
  | item :: rest =>
      m <- meme item ;;
      ms <- memes rest ;;
      Ok (m :: ms)
  end.

(** [fetch_memes(search_terms)] *)
Definition fetch_memes (search_terms : string) : result (list json) :=
  response <- http_get "https://g.tenor.com/v1/search"
                [("api_key", TENOR_API_KEY); ("q", JStr search_terms);
                 ("limit", JInt 5)] ;;
  if Z.eqb (status_code response) 200 then
    body <- json_body response ;;
    results <- dict_get body "results" (JArr []) ;;
    items <- iter results ;;
    memes items
  else Ok [].

End FetchMemes.

End utils.

(** ** [src/bot.py]: the ledger helpers and the handlers *)

Module bot.

(** What a handler leaves behind: the committed database, the calls it made
    to the model and to the chat platform, and the exception that escaped
    it, if any. *)
Inductive event : Type :=
| ModelCall (prompt : string)
| Reply (body : json) (parse_mode : option string).

Record outcome : Type := {
  out_db : db;
  out_events : list event;
  out_raised : option exn
}.

(** [update.effective_user] *)
Record tg_user : Type := {
  id : Z;
  first_name : string
}.

(** [column = ?] on a nullable integer column: NULL equals nothing. *)
Definition sql_eq (column param : option Z) : bool :=
  match column, param with
  | Some a, Some b => Z.eqb a b
  | _, _ => false
  end.

Definition sql_text_eq (column param : option string) : bool :=
  match column, param with
  | Some a, Some b => String.eqb a b
  | _, _ => false
  end.

(** The rowid SQLite picks for a new row: one more than the largest in
    use, 1 in an empty table; with AUTOINCREMENT the largest ever used
    counts too. *)
Definition max_rowid (ids : list Z) : option Z :=
  match ids with
  | [] => None
  | i :: rest => Some (fold_left Z.max rest i)
  end.

Definition next_rowid (ids : list Z) : Z :=
  match max_rowid ids with
  | None => 1
  | Some m => m + 1
  end.

Definition next_autoincrement (seq : Z) (ids : list Z) : Z :=
  match max_rowid ids with
  | None => seq + 1
  | Some m => Z.max seq m + 1
  end.

(** What is stored in a TEXT column for a bound Python value. *)
Definition bind_text (E : env) (v : json) : result (option string) :=
  match v with
  | JStr s => Ok (Some s)
  | JNull => Ok None
  | _ => sqlite_text E v
  end.

Definition with_users (d : db) (us : list user_row) : db :=
  {| users := us; messages := messages d; wallets := wallets d;
     payments := payments d; seq_messages := seq_messages d;
     seq_wallets := seq_wallets d; seq_payments := seq_payments d |}.

(** [INSERT OR IGNORE INTO users (telegram_id, name) VALUES (?, ?)] *)
Definition ensure_user (d : db) (telegram_id : Z) (name : string) : db :=
  if existsb (fun u => Z.eqb (user_telegram_id u) telegram_id) (users d)
  then d
  else with_users d
         (users d ++ [ {| user_id := next_rowid (map user_id (users d));
                          user_telegram_id := telegram_id;
                          user_name := name;
                          user_message_count := 0 |} ]).

(** [SELECT id FROM users WHERE telegram_id = ?], first row or [None] *)
Definition get_user_id (d : db) (telegram_id : Z) : option Z :=
  match filter (fun u => Z.eqb (user_telegram_id u) telegram_id) (users d) with
  | [] => None
  | u :: _ => Some (user_id u)
  end.

Definition has_id (uid : option Z) (u : user_row) : bool :=
  sql_eq (Some (user_id u)) uid.

(** [SELECT message_count FROM users WHERE id = ?] *)
Definition select_message_count (d : db) (uid : option Z) : list Z :=
  map user_message_count (filter (has_id uid) (users d)).

Definition set_message_count (f : Z -> Z) (uid : option Z) (u : user_row)
  : user_row :=
  if has_id uid u
  then {| user_id := user_id u; user_telegram_id := user_telegram_id u;
          user_name := user_name u;
          user_message_count := f (user_message_count u) |}
  else u.

(** [message_count + 1] as SQLite computes it.  A count within the 64-bit
    range is an INTEGER.  At [2^63 - 1] the sum overflows and is stored as
    the REAL [9223372036854775808.0]; a count outside the 64-bit range
    stands for the REAL of that value, and adding 1 to such a REAL gives
    the same REAL back. *)
Definition sqlite_add_one (n : Z) : Z :=
  if Z.leb (-9223372036854775808) n && Z.ltb n 9223372036854775808
  then n + 1
  else n.

(** [increment_message_count]: the update, then the read-back. *)
Definition increment_message_count (d : db) (uid : option Z) : db * Z :=
  let d' := with_users d (map (set_message_count sqlite_add_one uid) (users d)) in
  (d', match select_message_count d' uid with
       | [] => 0
       | n :: _ => n
       end).

(** [UPDATE users SET message_count = 0 WHERE id = ?] *)
Definition reset_message_count (d : db) (uid : option Z) : db :=
  with_users d (map (set_message_count (fun _ => 0) uid) (users d)).

(** [store_message] *)
Definition store_message (E : env) (d : db) (uid : option Z) (message : json)
    (role : string) : result db :=
  m <- bind_text E message ;;
  let i := next_autoincrement (seq_messages d) (map message_id (messages d)) in
  Ok {| users := users d;
        messages := messages d ++
          [ {| message_id := i; message_user_id := uid; message_text := m;
               message_role := role;
               message_timestamp := current_timestamp E d |} ];
        wallets := wallets d; payments := payments d;
        seq_messages := i; seq_wallets := seq_wallets d;
        seq_payments := seq_payments d |}.

(** [ORDER BY timestamp]: rows with equal timestamps keep their rowid order. *)
Fixpoint insert_by_timestamp (m : message_row) (sorted : list message_row)
  : list message_row :=
  match sorted with
  | [] => [m]
  | x :: rest =>
      if Z.ltb (message_timestamp m) (message_timestamp x)
      then m :: sorted
      else x :: insert_by_timestamp m rest
  end.

Definition order_by_timestamp (rows : list message_row) : list message_row :=
  fold_left (fun acc m => insert_by_timestamp m acc) rows [].

(** [get_user_history] *)
Definition get_user_history (d : db) (uid : option Z)
  : list (option string * string) :=
  map (fun m => (message_text m, message_role m))
      (order_by_timestamp
         (filter (fun m => sql_eq (message_user_id m) uid) (messages d))).

(** [SELECT wallet_address FROM wallets WHERE user_id = ?] *)
Definition select_wallet (d : db) (uid : option Z) : list string :=
  map wallet_address
      (filter (fun w => sql_eq (wallet_user_id w) uid) (wallets d)).

(** The INSERT of [paid]: the UNIQUE constraint on [transaction_id] makes it
    fail with [IntegrityError]. *)
Definition insert_payment (E : env) (d : db) (uid : option Z) (txn_id : json)
    (amount : spec_float) : result db :=
  t <- bind_text E txn_id ;;
  if existsb (fun p => sql_text_eq (payment_transaction_id p) t) (payments d)
  then Raise IntegrityError
  else
    let i := next_autoincrement (seq_payments d) (map payment_id (payments d)) in
    Ok {| users := users d; messages := messages d; wallets := wallets d;
          payments := payments d ++
            [ {| payment_id := i; payment_user_id := uid;
                 payment_transaction_id := t; payment_amount := amount;
                 payment_status := "verified";
                 payment_timestamp := current_timestamp E d |} ];
          seq_messages := seq_messages d; seq_wallets := seq_wallets d;
          seq_payments := i |}.

(** The upsert of [wallet]: a rowid is drawn from the sequence even when
    the row of the user is updated in place. *)
Definition upsert_wallet (d : db) (uid : option Z) (address : string) : db :=
  let i := next_autoincrement (seq_wallets d) (map wallet_id (wallets d)) in
  let bound := fun w => sql_eq (wallet_user_id w) uid in
  {| users := users d; messages := messages d;
     wallets :=
       if existsb bound (wallets d)
       then map (fun w => if bound w
                          then {| wallet_id := wallet_id w;
                                  wallet_user_id := wallet_user_id w;
                                  wallet_address := address |}
                          else w) (wallets d)
       else wallets d ++ [ {| wallet_id := i; wallet_user_id := uid;
                              wallet_address := address |} ];
     payments := payments d; seq_messages := seq_messages d;
     seq_wallets := i; seq_payments := seq_payments d |}.

(** The transcript line of one stored message; a NULL text prints as
    [None]. *)
Definition transcript_line (E : env) (row : option string * string) : string :=
  capitalize E (snd row) ++ ": " ++
  match fst row with Some msg => msg | None => "None" end.

(** [response.text.replace("```json", "").replace("```", "").strip()] *)
Definition strip_fences (s : string) : string :=
  strip (remove_all "```" (remove_all "```json" s)).

(** [generate_response]: the value returned and the model call made.  The
    [plan] entry is read for the debug log before [message] is returned;
    any exception becomes the text of the reply. *)
Definition generate_response (E : env) (history : list (option string * string))
  : json * list event :=
  let full_prompt := String.concat LF (map (transcript_line E) history) in
  let attempt :=
    body <- generate_content E full_prompt ;;
    result <- json_loads E (strip_fences body) ;;
    _plan <- getitem result "plan" ;;
    getitem result "message" in
  (match attempt with
   | Ok message => message
   | Raise e => JStr ("Error: " ++ str_of_exn E e)
   end,
   [ModelCall full_prompt]).

Definition say (s : string) : event := Reply (JStr s) None.

(** [start] *)
Definition start (E : env) (d : db) (user : tg_user) : outcome :=
  {| out_db := ensure_user d (id user) (first_name user);
     out_events :=
       [say "Hey what would you like to be called and where are you from?"];
     out_raised := None |}.

(** [chat] *)
Definition chat (E : env) (d : db) (user : tg_user) (user_message : string)
  : outcome :=
  let d1 := ensure_user d (id user) (first_name user) in
  let uid := get_user_id d1 (id user) in
  let (d2, message_count) := increment_message_count d1 uid in
  if Z.gtb message_count 20 then
    match select_wallet d2 uid with
    | [] =>
        {| out_db := d2;
           out_events :=
             [say "Provide your wallet address first. Use /wallet <wallet_address>."];
           out_raised := None |}
    | _ :: _ =>
        {| out_db := d2;
           out_events :=
             [say ("Limit reached. Send 0.001 SOL to " ++ CRYPTO_WALLET_ADDRESS E
                   ++ " and verify using /paid.")];
           out_raised := None |}
    end
  else
    match store_message E d2 uid (JStr user_message) "user" with
    | Raise e => {| out_db := d2; out_events := []; out_raised := Some e |}
    | Ok d3 =>
        let (bot_response, calls) := generate_response E (get_user_history d3 uid) in
        match store_message E d3 uid bot_response "bot" with
        | Raise e => {| out_db := d3; out_events := calls; out_raised := Some e |}
        | Ok d4 =>
            {| out_db := d4;
               out_events := calls ++ [Reply bot_response None];
               out_raised := None |}
        end
    end.

(** [paid] *)
Definition paid (E : env) (d : db) (user : tg_user) : outcome :=
  let d1 := ensure_user d (id user) (first_name user) in
  let uid := get_user_id d1 (id user) in
  match select_wallet d1 uid with
  | [] =>
      {| out_db := d1;
         out_events :=
           [say "Provide your wallet address first. Use /wallet <wallet_address>."];
         out_raised := None |}
  | address :: _ =>
      match utils.verify_payment E (CRYPTO_WALLET_ADDRESS E) address float_0_001 with
      | Raise e => {| out_db := d1; out_events := []; out_raised := Some e |}
      | Ok txn_id =>
          if truthy txn_id then
            match insert_payment E d1 uid txn_id float_0_001 with
            | Ok d2 =>
                {| out_db := reset_message_count d2 uid;
                   out_events := [say "Payment verified!"];
                   out_raised := None |}
            | Raise _ =>
                {| out_db := d1;
                   out_events := [say "Payment already used!"];
                   out_raised := None |}
            end
          else
            {| out_db := d1;
               out_events := [say "Payment not found."];
               out_raised := None |}
      end
  end.

(** [wallet]; [args] is [context.args]. *)
Definition wallet (E : env) (d : db) (user : tg_user) (args : list string)
  : outcome :=
  let d1 := ensure_user d (id user) (first_name user) in
  let uid := get_user_id d1 (id user) in
  match args with
  | [] =>
      {| out_db := d1;
         out_events :=
           [Reply (JStr ("Please provide your Solana wallet address in the following format:"
                         ++ LF ++ "`/wallet <your_wallet_address>`"))
                  (Some "Markdown")];
         out_raised := None |}
  | address :: _ =>
      if negb (Nat.eqb (String.length address) 44) || negb (isalnum address)
      then
        {| out_db := d1;
           out_events :=
             [say "Invalid wallet address format. Please ensure it is a valid Solana wallet address."];
           out_raised := None |}
      else
        {| out_db := upsert_wallet d1 uid address;
           out_events :=
             [Reply (JStr ("Your wallet address has been saved successfully: `"
                           ++ address ++ "`"))
                    (Some "Markdown")];
           out_raised := None |}
  end.

(** The four handlers registered on the application: a [/start], [/paid]
    or [/wallet] command, or a text message that is no command. *)
Inductive command : Type :=
| Start
| Paid
| Wallet (args : list string)
| Text (user_message : string).

Definition handle (E : env) (d : db) (user : tg_user) (c : command) : outcome :=
  match c with
  | Start => start E d user
  | Paid => paid E d user
  | Wallet args => wallet E d user args
  | Text user_message => chat E d user user_message
  end.

(** The ledger after a sequence of updates, handled one after the other. *)
Fixpoint run (E : env) (d : db) (updates : list (tg_user * command)) : db :=
  match updates with
  | [] => d
  | (user, c) :: rest => run E (out_db (handle E d user c)) rest
  end.

End bot.

(** ** Vocabulary of the statements *)

(** The [info] object of an instruction, when the instruction is an object
    whose [parsed] entry is an object that has an [info] object. *)
Definition instruction_info (instruction : json) : option (list (string * json)) :=
  match instruction with
  | JObj fields =>
      match assoc "parsed" fields with
      | Some (JObj pfields) =>
          match assoc "info" pfields with
          | Some (JObj info) => Some info
          | _ => None
          end
      | _ => None
      end
  | _ => None
  end.

(** One pass of the outer loop of [verify_payment] up to the inner loop: the
    signature of the entry and the instructions to scan, [None] when the
    entry is skipped ([continue]). *)
Definition fetch_instructions (E : env) (txn : json)
  : result (json * option (list json)) :=
  signature <- getitem txn "signature" ;;
  txn_response <- rpc_post E (GetTransaction signature "jsonParsed") ;;
  if negb (Z.eqb (status_code txn_response) 200) then Ok (signature, None)
  else
    body <- json_body txn_response ;;
    txn_data <- dict_get body "result" (JObj []) ;;
    if negb (truthy txn_data) then Ok (signature, None)
    else
      instructions <- utils.transaction_instructions txn_data ;;
      l <- iter instructions ;;
      Ok (signature, Some l).

(** Does the scan of one entry of the signature list end in [return]? *)
Definition transaction_matches (E : env) (receiving_wallet sender_wallet : string)
    (expected_amount : spec_float) (txn : json) : result bool :=
  fetched <- fetch_instructions E txn ;;
  match snd fetched with
  | None => Ok false
  | Some l =>
      utils.scan_instructions E receiving_wallet sender_wallet expected_amount l
  end.

(** The signature-list call of [verify_payment]: the entries to scan,
    [None] when the call is answered with a status other than 200. *)
Definition signature_list (E : env) (sender_wallet : string)
  : result (option (list json)) :=
  response <- rpc_post E (GetSignaturesForAddress sender_wallet 20) ;;
  if negb (Z.eqb (status_code response) 200) then Ok None
  else
    body <- json_body response ;;
    transactions <- dict_get body "result" (JArr []) ;;
    l <- iter transactions ;;
    Ok (Some l).

(** A detail answer that makes the loop [continue]: a status other than
    200, or a body whose [result] is missing or falsy. *)
Definition detail_unusable (r : response) : Prop :=
  status_code r <> 200 \/
  exists body data,
    json_body r = Ok body /\
    dict_get body "result" (JObj []) = Ok data /\
    truthy data = false.

(** The message count the code reads back for a user id. *)
Definition message_count_of (d : db) (uid : option Z) : option Z :=
  hd_error (bot.select_message_count d uid).

(** The payment row [paid] inserts into [d]. *)
Definition verified_payment (E : env) (d : db) (uid : option Z) (txn_id : string)
  : payment_row :=
  {| payment_id :=
       bot.next_autoincrement (seq_payments d) (map payment_id (payments d));
     payment_user_id := uid;
     payment_transaction_id := Some txn_id;
     payment_amount := float_0_001;
     payment_status := "verified";
     payment_timestamp := current_timestamp E d |}.

(** The values of a nullable column that are not NULL. *)
Definition somes {A : Type} (l : list (option A)) : list A :=
  flat_map (fun o => match o with Some a => [a] | None => [] end) l.

(** The constraints of the schema: the primary keys, [telegram_id UNIQUE],
    [wallets.user_id UNIQUE] and [payments.transaction_id UNIQUE] (NULLs
    never collide). *)
Record ledger_ok (d : db) : Prop := {
  ok_user_ids : NoDup (map user_id (users d));
  ok_telegram_ids : NoDup (map user_telegram_id (users d));
  ok_message_ids : NoDup (map message_id (messages d));
  ok_wallet_ids : NoDup (map wallet_id (wallets d));
  ok_payment_ids : NoDup (map payment_id (payments d));
  ok_wallet_users : NoDup (somes (map wallet_user_id (wallets d)));
  ok_transaction_ids : NoDup (somes (map payment_transaction_id (payments d)))
}.

(** Is this row a message of the user?  (The WHERE clause of
    [get_user_history].) *)
Definition message_of (uid : option Z) (m : message_row) : bool :=
  bot.sql_eq (message_user_id m) uid.

(** [d'] is [d] up to what belongs to the user with telegram id [tid] and
    id [uid], and up to rows added: the counts, ids and wallets of the
    other users are the same, and no payment, message or user is gone. *)
Record extends (tid : Z) (uid : option Z) (d d' : db) : Prop := {
  ext_counts : forall j, Some j <> uid ->
    bot.select_message_count d' (Some j) = bot.select_message_count d (Some j);
  ext_ids : forall t, t <> tid -> bot.get_user_id d' t = bot.get_user_id d t;
  ext_wallets : forall j, Some j <> uid ->
    bot.select_wallet d' (Some j) = bot.select_wallet d (Some j);
  ext_payments : forall p, In p (payments d) -> In p (payments d');
  ext_messages : forall m, In m (messages d) -> In m (messages d');
  ext_users : forall u, In u (users d) ->
    exists u', In u' (users d')
               /\ user_id u' = user_id u
               /\ user_telegram_id u' = user_telegram_id u
               /\ user_name u' = user_name u
}.

(** The order of [ORDER BY timestamp]. *)
Definition timestamp_le (a b : message_row) : Prop :=
  message_timestamp a <= message_timestamp b.

(** The columns [get_user_history] selects. *)
Definition history_entry (m : message_row) : option string * string :=
  (message_text m, message_role m).

(** A text without any backtick. *)
Definition free_of_backticks (s : string) : bool :=
  forallb (fun c => negb (Ascii.eqb c "`")) (list_ascii_of_string s).

(** A count that the database holds as a 64-bit INTEGER. *)
Definition sqlite_integer (n : Z) : Prop :=
  -9223372036854775808 <= n <= 9223372036854775807.

(** The row [u] with its message count set to [c]. *)
Definition counted (c : Z) (u : user_row) : user_row :=
  {| user_id := user_id u; user_telegram_id := user_telegram_id u;
     user_name := user_name u; user_message_count := c |}.

(** The users relation with the count of the user [i] set to [c]. *)
Definition with_count (i c : Z) (us : list user_row) : list user_row :=
  map (fun r => if Z.eqb (user_id r) i then counted c r else r) us.

(** The user, text and role of a stored message. *)
Definition columns (m : message_row) : option Z * option string * string :=
  (message_user_id m, message_text m, message_role m).

(** ** Concrete data for the examples *)

Module demo.

Definition DQ : string := String (ascii_of_nat 34) EmptyString.

Definition RECEIVER : string := "9xQeWvG816bUx9EPjHmaT23yvVM2ZWbrrpZb9PusVFin".
Definition SENDER : string := "4Nd1mBQtrMJVYVfKf2PJy9NZUZdTAsp7D4xWLs4gDB4T".
Definition OTHER : string := "7dHbWXmci3dT8UFYWYZweBLXgycu7Y3iL6trKn1Y7ARj".

(** A system transfer as the RPC renders it with the [jsonParsed] encoding. *)
Definition transfer (destination source : string) (lamports : Z) : json :=
  JObj [("parsed",
         JObj [("info", JObj [("destination", JStr destination);
                              ("lamports", JInt lamports);
                              ("source", JStr source)]);
               ("type", JStr "transfer")]);
        ("program", JStr "system");
        ("programId", JStr "11111111111111111111111111111111")].

(** An SPL Memo instruction: its [parsed] entry is the memo text. *)
Definition memo (note : string) : json :=
  JObj [("parsed", JStr note);
        ("program", JStr "spl-memo");
        ("programId", JStr "MemoSq4gqABAXKb96qnH8TysNcWxMyWCqXgDLGmfcHr")].

(** An instruction of a program the RPC does not decode. *)
Definition undecoded : json :=
  JObj [("accounts", JArr []); ("data", JStr "3Bxs4h24hBtQy9rw");
        ("programId", JStr "ComputeBudget111111111111111111111111111111")].


Definition success (result : json) : response :=
  {| status_code := 200; text := "";
     json_body := Ok (JObj [("jsonrpc", JStr "2.0"); ("result", result);
                            ("id", JInt 1)]) |}.

Definition failure (code : Z) : response :=
  {| status_code := code; text := "Too Many Requests";
     json_body := Raise (OtherError "JSONDecodeError" "Expecting value") |}.

Definition signatures (sigs : list string) : response :=
  success (JArr (map (fun s => JObj [("signature", JStr s); ("slot", JInt 1)]) sigs)).

Definition detail (instructions : list json) : response :=
  success (JObj [("slot", JInt 1);
                 ("transaction",
                  JObj [("message", JObj [("instructions", JArr instructions)])])]).

Fixpoint lookup_detail (book : list (string * response)) (s : string)
  : result response :=
  match book with
  | [] => Ok (success JNull)
  | (s', r) :: rest => if String.eqb s s' then Ok r else lookup_detail rest s
  end.

(** An RPC endpoint that answers the signature-list call with [listing]
    and the detail call for a signature from [book]. *)
Definition endpoint (listing : response) (book : list (string * response))
    (q : request) : result response :=
  match q with
  | GetSignaturesForAddress _ _ => Ok listing
  | GetTransaction (JStr s) _ => lookup_detail book s
  | GetTransaction _ _ => Ok (failure 400)
  end.

(** The body [{"message": "hi"}] and the same with a [plan]. *)
Definition body_message_only : string :=
  "{" ++ DQ ++ "message" ++ DQ ++ ": " ++ DQ ++ "hi" ++ DQ ++ "}".
Definition body_with_plan : string :=
  "{" ++ DQ ++ "plan" ++ DQ ++ ": [], " ++ DQ ++ "message" ++ DQ ++ ": "
      ++ DQ ++ "hi" ++ DQ ++ "}".

Definition loads (s : string) : result json :=
  if String.eqb s body_message_only then Ok (JObj [("message", JStr "hi")])
  else if String.eqb s body_with_plan
       then Ok (JObj [("plan", JArr []); ("message", JStr "hi")])
       else Raise (OtherError "JSONDecodeError" "Expecting value").

(** [capitalize] on the unaccented letters. *)
Definition upper (c : ascii) : ascii :=
  let n := nat_of_ascii c in
  if ((97 <=? n) && (n <=? 122))%nat then ascii_of_nat (n - 32) else c.

Definition lower (c : ascii) : ascii :=
  let n := nat_of_ascii c in
  if ((65 <=? n) && (n <=? 90))%nat then ascii_of_nat (n + 32) else c.

Fixpoint lowercase (s : string) : string :=
  match s with
  | EmptyString => EmptyString
  | String c s' => String (lower c) (lowercase s')
  end.

Definition capitalized (s : string) : string :=
  match s with
  | EmptyString => EmptyString
  | String c s' => String (upper c) (lowercase s')
  end.

Definition show_exn (e : exn) : string :=
  match e with
  | KeyError k => "'" ++ k ++ "'"
  | OtherError _ msg => msg
  | _ => "error"
  end.

Definition world (rpc : request -> result response) (reply : string) : env :=
  {| rpc_post := rpc;
     generate_content := fun _ => Ok reply;
     CRYPTO_WALLET_ADDRESS := RECEIVER;
     current_timestamp := fun d => 1700000000 + Z.of_nat (List.length (messages d));
     int_of_str := fun _ => Raise ValueError;
     json_loads := loads;
     str_of_exn := show_exn;
     capitalize := capitalized;
     sqlite_text := fun _ => Raise (OtherError "ProgrammingError" "unsupported type") |}.

Definition empty_db : db :=
  {| users := []; messages := []; wallets := []; payments := [];
     seq_messages := 0; seq_wallets := 0; seq_payments := 0 |}.

Definition alice : bot.tg_user := {| bot.id := 1001; bot.first_name := "Alice" |}.

(** The payment rows of user 1 for the transaction identifiers [used],
    numbered from [k]. *)
Fixpoint credited (k : Z) (used : list string) : list payment_row :=
  match used with
  | [] => []
  | s :: rest =>
      {| payment_id := k; payment_user_id := Some 1;
         payment_transaction_id := Some s;
         payment_amount := float_0_001;
         payment_status := "verified";
         payment_timestamp := 1690000000 |} :: credited (k + 1) rest
  end.

(** Alice is registered as user 1 with [n] messages counted and, when
    [bound], with [SENDER] as her wallet; [used] are the transaction
    identifiers already credited to her. *)
Definition alice_db (n : Z) (bound : bool) (used : list string) : db :=
  {| users := [ {| user_id := 1; user_telegram_id := 1001;
                   user_name := "Alice"; user_message_count := n |} ];
     messages := [];
     wallets := if bound
                then [ {| wallet_id := 1; wallet_user_id := Some 1;
                          wallet_address := SENDER |} ]
                else [];
     payments := credited 1 used;
     seq_messages := 0;
     seq_wallets := if bound then 1 else 0;
     seq_payments := Z.of_nat (List.length used) |}.

(** Alice's ledger after a first message, stored at 1700000000. *)
Definition alice_wrote : db :=
  {| users := [ {| user_id := 1; user_telegram_id := 1001;
                   user_name := "Alice"; user_message_count := 1 |} ];
     messages := [ {| message_id := 1; message_user_id := Some 1;
                      message_text := Some "one"; message_role := "user";
                      message_timestamp := 1700000000 |} ];
     wallets := []; payments := [];
     seq_messages := 1; seq_wallets := 0; seq_payments := 0 |}.

End demo.

Example demo_paid_once :
  let E := demo.world (demo.endpoint (demo.signatures ["S1"])
             [("S1", demo.detail [demo.transfer demo.RECEIVER demo.SENDER 1000000])])
             "" in
  utils.verify_payment E demo.RECEIVER demo.SENDER float_0_001 = Ok (JStr "S1")
  /\ bot.out_events (bot.paid E (demo.alice_db 21 true []) demo.alice)
     = [bot.say "Payment verified!"].
Proof. vm_compute. split; reflexivity. Qed.

(** * Properties *)

(** ** The scan of [verify_payment] *)

Section ScanFacts.

Variable E : env.
Variables receiving_wallet sender_wallet : string.
Variable expected_amount : spec_float.

Local Abbreviation matches :=
  (transaction_matches E receiving_wallet sender_wallet expected_amount).
Local Abbreviation scan :=
  (utils.scan_transactions E receiving_wallet sender_wallet expected_amount).
Local Abbreviation scan_inner :=
  (utils.scan_instructions E receiving_wallet sender_wallet expected_amount).
Local Abbreviation imatch :=
  (utils.instruction_matches E receiving_wallet sender_wallet expected_amount).

(** One iteration of the outer loop, in terms of [transaction_matches]. *)
Lemma scan_transactions_cons (txn : json) (rest : list json) :
  scan (txn :: rest) =
  (m <- matches txn ;; if m then getitem txn "signature" else scan rest).
Proof.
  unfold transaction_matches, fetch_instructions.
  cbn [utils.scan_transactions].
  destruct (getitem txn "signature") as [sig|e]; cbn [bind]; [|reflexivity].
  destruct (rpc_post E (GetTransaction sig "jsonParsed")) as [r|e];
    cbn [bind]; [|reflexivity].
  destruct (negb (Z.eqb (status_code r) 200)); cbn [bind snd]; [reflexivity|].
  destruct (json_body r) as [body|e]; cbn [bind]; [|reflexivity].
  destruct (dict_get body "result" (JObj [])) as [data|e]; cbn [bind]; [|reflexivity].
  destruct (negb (truthy data)); cbn [bind snd]; [reflexivity|].
  destruct (utils.transaction_instructions data) as [instrs|e]; cbn [bind]; [|reflexivity].
  destruct (iter instrs) as [l|e]; cbn [bind snd]; [|reflexivity].
  destruct (utils.scan_instructions E receiving_wallet sender_wallet expected_amount l)
    as [[|]|e]; reflexivity.
Qed.

(** Entries that do not match are passed over. *)
Lemma scan_transactions_pass (pre rest : list json) :
  Forall (fun t => matches t = Ok false) pre ->
  scan (pre ++ rest) = scan rest.
Proof.
  induction 1 as [|t pre Ht _ IH]; [reflexivity|].
  rewrite <- app_comm_cons, scan_transactions_cons, Ht. exact IH.
Qed.

(** The scan returns the signature of the first entry that matches. *)
Lemma scan_transactions_first (pre post : list json) (txn signature : json) :
  Forall (fun t => matches t = Ok false) pre ->
  matches txn = Ok true ->
  getitem txn "signature" = Ok signature ->
  scan (pre ++ txn :: post) = Ok signature.
Proof.
  intros Hpre Hm Hs.
  rewrite (scan_transactions_pass pre (txn :: post) Hpre).
  rewrite scan_transactions_cons, Hm. exact Hs.
Qed.

(** A scan in which nothing matches ends with [None]. *)
Lemma scan_transactions_none (txns : list json) :
  Forall (fun t => matches t = Ok false) txns ->
  scan txns = Ok JNull.
Proof.
  intros H. rewrite <- (app_nil_r txns).
  rewrite (scan_transactions_pass txns [] H). reflexivity.
Qed.

Lemma scan_instructions_pass (pre rest : list json) :
  Forall (fun i => imatch i = Ok false) pre ->
  scan_inner (pre ++ rest) = scan_inner rest.
Proof.
  induction 1 as [|i pre Hi _ IH]; [reflexivity|].
  rewrite <- app_comm_cons.
  cbn [utils.scan_instructions]. rewrite Hi. exact IH.
Qed.

Lemma scan_instructions_first (pre post : list json) (i : json) :
  Forall (fun j => imatch j = Ok false) pre ->
  imatch i = Ok true ->
  scan_inner (pre ++ i :: post) = Ok true.
Proof.
  intros Hpre Hi. rewrite (scan_instructions_pass pre (i :: post) Hpre).
  cbn [utils.scan_instructions]. rewrite Hi. reflexivity.
Qed.

Lemma scan_instructions_none (l : list json) :
  Forall (fun i => imatch i = Ok false) l ->
  scan_inner l = Ok false.
Proof.
  intros H. rewrite <- (app_nil_r l).
  rewrite (scan_instructions_pass l [] H). reflexivity.
Qed.

(** What the inner loop computes on an instruction that has an [info]
    object. *)
Lemma instruction_matches_info (i : json) (info : list (string * json)) :
  instruction_info i = Some info ->
  imatch i =
  if eq_str (match assoc "destination" info with Some v => v | None => JNull end)
            receiving_wallet
  then
    lamports <- py_int E (match assoc "lamports" info with
                          | Some v => v
                          | None => JInt 0
                          end) ;;
    amount_received <- truediv lamports float_1e9 ;;
    Ok (eq_str (match assoc "source" info with Some v => v | None => JNull end)
               sender_wallet
        && SFeqb amount_received expected_amount)
  else Ok false.
Proof.
  unfold instruction_info, utils.instruction_matches, utils.parsed_info.
  destruct i as [| | | | | |fields]; try discriminate.
  cbn [dict_get bind].
  destruct (assoc "parsed" fields) as [[| | | | | |pfields]|]; try discriminate.
  destruct pfields as [|kv pfields']; [discriminate|].
  cbn [truthy dict_get bind].
  destruct (assoc "info" (kv :: pfields')) as [[| | | | | |info']|]; try discriminate.
  intros [= ->]. cbn [dict_get bind].
  destruct (eq_str _ receiving_wallet); reflexivity.
Qed.

(** An instruction without a [parsed] entry, or with an empty one, is
    passed over. *)
Lemma instruction_matches_unparsed (fields : list (string * json)) :
  match assoc "parsed" fields with
  | None => True
  | Some v => truthy v = false
  end ->
  imatch (JObj fields) = Ok false.
Proof.
  unfold utils.instruction_matches. cbn [dict_get bind].
  destruct (assoc "parsed" fields) as [v|]; [intros ->; reflexivity|].
  intros _. reflexivity.
Qed.

End ScanFacts.

(** ** [verify_payment] and the answers of the RPC endpoint *)

Section VerifyFacts.

Variable E : env.
Variables receiving_wallet sender_wallet : string.
Variable expected_amount : spec_float.

Local Abbreviation matches :=
  (transaction_matches E receiving_wallet sender_wallet expected_amount).
Local Abbreviation scan :=
  (utils.scan_transactions E receiving_wallet sender_wallet expected_amount).
Local Abbreviation verify :=
  (utils.verify_payment E receiving_wallet sender_wallet expected_amount).

(** [verify_payment] is the scan of the entries of the signature list. *)
Lemma verify_payment_listing :
  verify =
  (o <- signature_list E sender_wallet ;;
   match o with
   | None => Ok JNull
   | Some l => scan l
   end).
Proof.
  unfold utils.verify_payment, signature_list.
  destruct (rpc_post E (GetSignaturesForAddress sender_wallet 20)) as [r|e];
    cbn [bind]; [|reflexivity].
  destruct (negb (Z.eqb (status_code r) 200)); cbn [bind]; [reflexivity|].
  destruct (json_body r) as [body|e]; cbn [bind]; [|reflexivity].
  destruct (dict_get body "result" (JArr [])) as [ts|e]; cbn [bind]; [|reflexivity].
  destruct (iter ts) as [l|e]; reflexivity.
Qed.

(** An entry whose detail cannot be used does not match. *)
Lemma transaction_matches_unusable (txn signature : json) (r : response) :
  getitem txn "signature" = Ok signature ->
  rpc_post E (GetTransaction signature "jsonParsed") = Ok r ->
  detail_unusable r ->
  matches txn = Ok false.
Proof.
  intros Hs Hr Hu. unfold transaction_matches, fetch_instructions.
  rewrite Hs. cbn [bind]. rewrite Hr. cbn [bind].
  destruct Hu as [Hc | (body & data & Hb & Hd & Ht)].
  - apply Z.eqb_neq in Hc. rewrite Hc. reflexivity.
  - destruct (Z.eqb (status_code r) 200); [|reflexivity].
    cbn [negb]. rewrite Hb. cbn [bind]. rewrite Hd. cbn [bind].
    rewrite Ht. reflexivity.
Qed.

(** Taking an entry that does not match out of the list does not change
    the result of the scan. *)
Lemma scan_transactions_drop (pre post : list json) (txn : json) :
  matches txn = Ok false ->
  scan (pre ++ txn :: post) = scan (pre ++ post).
Proof.
  intros Hm. induction pre as [|t pre IH].
  - cbn [app]. rewrite scan_transactions_cons, Hm. reflexivity.
  - rewrite <- !app_comm_cons, !scan_transactions_cons.
    destruct (transaction_matches E receiving_wallet sender_wallet expected_amount t)
      as [[|]|e]; cbn [bind]; [reflexivity|exact IH|reflexivity].
Qed.

(** C4: a non-success answer to the signature-list call ends the
    verification with [None], no exception leaving the function; a
    non-success answer, or an empty result, to the detail call for one
    entry skips that entry only: the verification gives what the scan of
    the remaining entries gives. *)
Theorem verify_payment_rpc_failures :
  (forall r,
      rpc_post E (GetSignaturesForAddress sender_wallet 20) = Ok r ->
      status_code r <> 200 ->
      verify = Ok JNull)
  /\
  (forall (pre post : list json) (txn signature : json) (r : response),
      signature_list E sender_wallet = Ok (Some (pre ++ txn :: post)%list) ->
      getitem txn "signature" = Ok signature ->
      rpc_post E (GetTransaction signature "jsonParsed") = Ok r ->
      detail_unusable r ->
      verify = scan (pre ++ post)
      /\ scan (txn :: post) = scan post).
Proof.
  split.
  - intros r Hr Hc. unfold utils.verify_payment. rewrite Hr. cbn [bind].
    apply Z.eqb_neq in Hc. rewrite Hc. reflexivity.
  - intros pre post txn signature r Hl Hs Hr Hu.
    pose proof (transaction_matches_unusable txn signature r Hs Hr Hu) as Hm.
    split.
    + rewrite verify_payment_listing, Hl. cbn [bind].
      apply scan_transactions_drop. exact Hm.
    + apply (scan_transactions_drop [] post txn Hm).
Qed.

End VerifyFacts.

(** The first entry gets 429 on its detail call; the second one is
    scanned and holds the payment. *)
Lemma verify_payment_rpc_failures_witness :
  (let E := demo.world (fun _ => Ok (demo.failure 503)) "" in
   utils.verify_payment E demo.RECEIVER demo.SENDER float_0_001 = Ok JNull)
  /\
  (let E := demo.world
              (demo.endpoint (demo.signatures ["S1"; "S2"])
                 [("S1", demo.failure 429);
                  ("S2", demo.detail
                           [demo.transfer demo.RECEIVER demo.SENDER 1000000])])
              "" in
   utils.verify_payment E demo.RECEIVER demo.SENDER float_0_001
   = utils.scan_transactions E demo.RECEIVER demo.SENDER float_0_001
       [JObj [("signature", JStr "S2"); ("slot", JInt 1)]]
   /\ utils.verify_payment E demo.RECEIVER demo.SENDER float_0_001 = Ok (JStr "S2")).
Proof.
  split.
  - cbv zeta.
    apply (proj1 (verify_payment_rpc_failures
                    (demo.world (fun _ => Ok (demo.failure 503)) "")
                    demo.RECEIVER demo.SENDER float_0_001)
             (demo.failure 503)).
    + reflexivity.
    + cbn. lia.
  - cbv zeta. split.
    + apply (proj2 (verify_payment_rpc_failures
                      (demo.world
                         (demo.endpoint (demo.signatures ["S1"; "S2"])
                            [("S1", demo.failure 429);
                             ("S2", demo.detail
                                      [demo.transfer demo.RECEIVER demo.SENDER 1000000])])
                         "")
                      demo.RECEIVER demo.SENDER float_0_001)
               [] [JObj [("signature", JStr "S2"); ("slot", JInt 1)]]
               (JObj [("signature", JStr "S1"); ("slot", JInt 1)])
               (JStr "S1") (demo.failure 429)).
      * reflexivity.
      * reflexivity.
      * reflexivity.
      * left. cbn. lia.
    + vm_compute. reflexivity.
Defined.

(** ** Matching instructions *)

Section MatchFacts.

Variable E : env.
Variables receiving_wallet sender_wallet : string.
Variable expected_amount : spec_float.

Local Abbreviation matches :=
  (transaction_matches E receiving_wallet sender_wallet expected_amount).
Local Abbreviation scan :=
  (utils.scan_transactions E receiving_wallet sender_wallet expected_amount).
Local Abbreviation imatch :=
  (utils.instruction_matches E receiving_wallet sender_wallet expected_amount).
Local Abbreviation verify :=
  (utils.verify_payment E receiving_wallet sender_wallet expected_amount).

Lemma fetch_instructions_signature (txn signature : json) (o : option (list json)) :
  fetch_instructions E txn = Ok (signature, o) ->
  getitem txn "signature" = Ok signature.
Proof.
  unfold fetch_instructions.
  destruct (getitem txn "signature") as [sig|e]; cbn [bind]; [|discriminate].
  destruct (rpc_post E (GetTransaction sig "jsonParsed")) as [r|e];
    cbn [bind]; [|discriminate].
  destruct (negb (Z.eqb (status_code r) 200)); [intros [= -> _]; reflexivity|].
  destruct (json_body r) as [body|e]; cbn [bind]; [|discriminate].
  destruct (dict_get body "result" (JObj [])) as [data|e]; cbn [bind]; [|discriminate].
  destruct (negb (truthy data)); [intros [= -> _]; reflexivity|].
  destruct (utils.transaction_instructions data) as [instrs|e]; cbn [bind]; [|discriminate].
  destruct (iter instrs) as [l|e]; cbn [bind]; [|discriminate].
  intros [= -> _]; reflexivity.
Qed.

(** A transfer to the receiving address from the sender whose amount
    compares equal to the expected one makes the inner loop return. *)
Lemma instruction_matches_transfer (i : json) (info : list (string * json))
    (lamports : Z) (amount_received : spec_float) :
  instruction_info i = Some info ->
  assoc "destination" info = Some (JStr receiving_wallet) ->
  assoc "source" info = Some (JStr sender_wallet) ->
  assoc "lamports" info = Some (JInt lamports) ->
  truediv lamports float_1e9 = Ok amount_received ->
  SFeqb amount_received expected_amount = true ->
  imatch i = Ok true.
Proof.
  intros Hi Hd Hs Hl Ha He.
  rewrite (instruction_matches_info _ _ _ _ i info Hi), Hd, Hs, Hl.
  cbn [eq_str py_int bind]. rewrite !String.eqb_refl, Ha. cbn [bind].
  rewrite He. reflexivity.
Qed.

(** An instruction whose destination is not the receiving address is
    passed over. *)
Lemma instruction_matches_other_destination (i : json) (info : list (string * json)) :
  instruction_info i = Some info ->
  assoc "destination" info <> Some (JStr receiving_wallet) ->
  imatch i = Ok false.
Proof.
  intros Hi Hd. rewrite (instruction_matches_info _ _ _ _ i info Hi).
  destruct (assoc "destination" info) as [[| | | |s| |]|]; cbn [eq_str]; try reflexivity.
  destruct (String.eqb s receiving_wallet) eqn:Heq; [|reflexivity].
  apply String.eqb_eq in Heq. subst s. contradiction.
Qed.

(** So is a transfer whose converted amount does not compare equal to the
    expected one. *)
Lemma instruction_matches_other_amount (i : json) (info : list (string * json))
    (lamports : Z) (amount_received : spec_float) :
  instruction_info i = Some info ->
  assoc "lamports" info = Some (JInt lamports) ->
  truediv lamports float_1e9 = Ok amount_received ->
  SFeqb amount_received expected_amount = false ->
  imatch i = Ok false.
Proof.
  intros Hi Hl Ha He. rewrite (instruction_matches_info _ _ _ _ i info Hi), Hl.
  destruct (eq_str _ receiving_wallet); [|reflexivity].
  cbn [py_int bind]. rewrite Ha. cbn [bind]. rewrite He.
  apply f_equal, andb_false_r.
Qed.

(** A fetched entry matches when the scan of its instructions returns. *)
Lemma transaction_matches_fetched (txn signature : json) (l : list json) :
  fetch_instructions E txn = Ok (signature, Some l) ->
  matches txn =
  utils.scan_instructions E receiving_wallet sender_wallet expected_amount l.
Proof.
  intros Hf. unfold transaction_matches. rewrite Hf. reflexivity.
Qed.

(** The verifier returns the signature of the first entry of the list
    that holds a matching transfer, provided every entry and every
    instruction before it is scanned to its end without a match. *)
Theorem verify_payment_first_match (pre post ipre ipost : list json)
    (txn signature i : json) (info : list (string * json))
    (lamports : Z) (amount_received : spec_float) :
  signature_list E sender_wallet = Ok (Some (pre ++ txn :: post)%list) ->
  Forall (fun t => matches t = Ok false) pre ->
  fetch_instructions E txn = Ok (signature, Some (ipre ++ i :: ipost)%list) ->
  Forall (fun j => imatch j = Ok false) ipre ->
  instruction_info i = Some info ->
  assoc "destination" info = Some (JStr receiving_wallet) ->
  assoc "source" info = Some (JStr sender_wallet) ->
  assoc "lamports" info = Some (JInt lamports) ->
  truediv lamports float_1e9 = Ok amount_received ->
  SFeqb amount_received expected_amount = true ->
  verify = Ok signature.
Proof.
  intros Hl Hpre Hf Hipre Hi Hd Hs Hla Ha He.
  rewrite verify_payment_listing, Hl. cbn [bind].
  apply scan_transactions_first.
  - exact Hpre.
  - rewrite (transaction_matches_fetched txn signature _ Hf).
    apply scan_instructions_first; [exact Hipre|].
    exact (instruction_matches_transfer i info lamports amount_received
             Hi Hd Hs Hla Ha He).
  - exact (fetch_instructions_signature txn signature _ Hf).
Qed.

(** The verifier returns [None] when the list is empty, and when every
    entry is scanned to its end without a match. *)
Theorem verify_payment_not_found (l : list json) :
  signature_list E sender_wallet = Ok (Some l) ->
  Forall (fun t => matches t = Ok false) l ->
  verify = Ok JNull.
Proof.
  intros Hl Hall. rewrite verify_payment_listing, Hl. cbn [bind].
  apply scan_transactions_none. exact Hall.
Qed.

End MatchFacts.



(** The newest transaction pays somebody else; the next one holds, after
    an instruction the RPC did not decode, the transfer of 0.001 SOL. *)
Lemma verify_payment_first_match_witness :
  let E := demo.world
             (demo.endpoint (demo.signatures ["S0"; "S1"; "S2"])
                [("S0", demo.detail
                          [demo.transfer demo.OTHER demo.SENDER 1000000]);
                 ("S1", demo.detail
                          [demo.undecoded;
                           demo.transfer demo.RECEIVER demo.SENDER 1000000]);
                 ("S2", demo.detail
                          [demo.transfer demo.RECEIVER demo.SENDER 1000000])])
             "" in
  utils.verify_payment E demo.RECEIVER demo.SENDER float_0_001 = Ok (JStr "S1").
Proof.
  cbv zeta.
  apply (verify_payment_first_match _ _ _ _
           [JObj [("signature", JStr "S0"); ("slot", JInt 1)]]
           [JObj [("signature", JStr "S2"); ("slot", JInt 1)]]
           [demo.undecoded] []
           (JObj [("signature", JStr "S1"); ("slot", JInt 1)])
           (JStr "S1")
           (demo.transfer demo.RECEIVER demo.SENDER 1000000)
           [("destination", JStr demo.RECEIVER); ("lamports", JInt 1000000);
            ("source", JStr demo.SENDER)]
           1000000 float_0_001).
  - reflexivity.
  - constructor; [vm_compute; reflexivity | constructor].
  - reflexivity.
  - constructor; [reflexivity | constructor].
  - reflexivity.
  - reflexivity.
  - reflexivity.
  - reflexivity.
  - reflexivity.
  - reflexivity.
Defined.

(** Two transactions, one paying somebody else and one paying 0.0011 SOL. *)
Lemma verify_payment_not_found_witness :
  let E := demo.world
             (demo.endpoint (demo.signatures ["S0"; "S1"])
                [("S0", demo.detail
                          [demo.transfer demo.OTHER demo.SENDER 1000000]);
                 ("S1", demo.detail
                          [demo.transfer demo.RECEIVER demo.SENDER 1100000])])
             "" in
  utils.verify_payment E demo.RECEIVER demo.SENDER float_0_001 = Ok JNull.
Proof.
  cbv zeta.
  apply (verify_payment_not_found _ _ _ _
           [JObj [("signature", JStr "S0"); ("slot", JInt 1)];
            JObj [("signature", JStr "S1"); ("slot", JInt 1)]]).
  - reflexivity.
  - repeat constructor; vm_compute; reflexivity.
Defined.

(** The deployed amount: 1000000 lamports convert to the float [0.001],
    1100000 lamports (0.0011 SOL) do not. *)
Example lamports_0_001 :
  truediv 1000000 float_1e9 = Ok float_0_001
  /\ (exists a, truediv 1100000 float_1e9 = Ok a /\ SFeqb a float_0_001 = false).
Proof.
  split; [reflexivity|]. eexists. split; reflexivity.
Qed.

(** C2 (defect of the code): the newest transaction of the sender pays
    exactly 0.001 SOL to the receiving address and carries a memo before
    the transfer.  The transfer is a matching instruction and, without the
    memo, the verifier returns the signature; with the memo, whose [parsed]
    entry is a string, the scan raises [AttributeError] instead of
    returning it. *)
Theorem verify_payment_memo_before_transfer :
  let pay := demo.transfer demo.RECEIVER demo.SENDER 1000000 in
  let E := fun instructions =>
    demo.world (demo.endpoint (demo.signatures ["S1"])
                  [("S1", demo.detail instructions)]) "" in
  utils.instruction_matches (E [pay]) demo.RECEIVER demo.SENDER float_0_001 pay
  = Ok true
  /\ utils.verify_payment (E [pay]) demo.RECEIVER demo.SENDER float_0_001
     = Ok (JStr "S1")
  /\ utils.verify_payment (E [demo.memo "order 42"; pay])
       demo.RECEIVER demo.SENDER float_0_001
     = Raise AttributeError.
Proof.
  cbv zeta. repeat split; vm_compute; reflexivity.
Qed.

(** C3 (defect of the code): with an empty signature list, with a transfer
    to another address and with a transfer of 0.0011 SOL the verifier
    returns [None]; but when the only instruction scanned is a memo, which
    has no destination at all, it raises [AttributeError] instead of
    returning [None]. *)
Theorem verify_payment_memo_only :
  let E := fun sigs instructions =>
    demo.world (demo.endpoint (demo.signatures sigs)
                  [("S1", demo.detail instructions)]) "" in
  utils.verify_payment (E [] []) demo.RECEIVER demo.SENDER float_0_001 = Ok JNull
  /\ utils.verify_payment
       (E ["S1"] [demo.transfer demo.OTHER demo.SENDER 1000000])
       demo.RECEIVER demo.SENDER float_0_001 = Ok JNull
  /\ utils.verify_payment
       (E ["S1"] [demo.transfer demo.RECEIVER demo.SENDER 1100000])
       demo.RECEIVER demo.SENDER float_0_001 = Ok JNull
  /\ instruction_info (demo.memo "gm") = None
  /\ utils.verify_payment (E ["S1"] [demo.memo "gm"])
       demo.RECEIVER demo.SENDER float_0_001 = Raise AttributeError.
Proof.
  cbv zeta. repeat split; vm_compute; reflexivity.
Qed.

(** ** The ledger *)

Section LedgerFacts.

Import bot.

Lemma existsb_filter_nil {A : Type} (f : A -> bool) (l : list A) :
  existsb f l = false <-> filter f l = [].
Proof.
  induction l as [|a l IH]; cbn; [tauto|].
  destruct (f a); cbn; [split; discriminate | exact IH].
Qed.

(** Registration is idempotent: a known user leaves the ledger as it is. *)
Lemma ensure_user_known (d : db) (telegram_id : Z) (name : string) :
  get_user_id d telegram_id <> None ->
  ensure_user d telegram_id name = d.
Proof.
  unfold get_user_id, ensure_user. intros H.
  destruct (existsb (fun u => Z.eqb (user_telegram_id u) telegram_id) (users d))
    eqn:Hex; [reflexivity|].
  apply existsb_filter_nil in Hex. rewrite Hex in H. contradiction.
Qed.

(** After [ensure_user] the user has an id. *)
Lemma ensure_user_registered (d : db) (telegram_id : Z) (name : string) :
  exists i, get_user_id (ensure_user d telegram_id name) telegram_id = Some i.
Proof.
  unfold ensure_user.
  destruct (existsb (fun u => Z.eqb (user_telegram_id u) telegram_id) (users d))
    eqn:Hex.
  - unfold get_user_id.
    destruct (filter (fun u => Z.eqb (user_telegram_id u) telegram_id) (users d))
      as [|u l] eqn:Hf.
    + apply existsb_filter_nil in Hf. congruence.
    + eexists; reflexivity.
  - apply existsb_filter_nil in Hex. unfold get_user_id, with_users. cbn [users].
    rewrite filter_app, Hex. cbn. rewrite Z.eqb_refl. eexists; reflexivity.
Qed.

(** [ensure_user] touches the [users] relation only and keeps its rows. *)
Lemma ensure_user_frame (d : db) (telegram_id : Z) (name : string) :
  let d1 := ensure_user d telegram_id name in
  messages d1 = messages d /\ wallets d1 = wallets d /\ payments d1 = payments d
  /\ seq_messages d1 = seq_messages d /\ seq_wallets d1 = seq_wallets d
  /\ seq_payments d1 = seq_payments d
  /\ (forall u, In u (users d) -> In u (users d1)).
Proof.
  unfold ensure_user.
  destruct (existsb _ (users d)); cbn; repeat split; auto.
  intros u Hu. apply in_or_app. left. exact Hu.
Qed.

(** A user with an id has a message count. *)
Lemma get_user_id_counted (d : db) (telegram_id i : Z) :
  get_user_id d telegram_id = Some i ->
  exists n, message_count_of d (Some i) = Some n.
Proof.
  unfold get_user_id, message_count_of, select_message_count.
  destruct (filter (fun u => Z.eqb (user_telegram_id u) telegram_id) (users d))
    as [|u l] eqn:Hf; [discriminate|].
  intros [= <-].
  assert (Hin : In u (filter (has_id (Some (user_id u))) (users d))).
  { apply filter_In. split.
    - assert (Hu : In u (u :: l)) by (left; reflexivity).
      rewrite <- Hf in Hu. apply filter_In in Hu. tauto.
    - unfold has_id, sql_eq. apply Z.eqb_refl. }
  destruct (filter (has_id (Some (user_id u))) (users d)) as [|v l']; [destruct Hin|].
  eexists; reflexivity.
Qed.

Lemma has_id_set_message_count (f : Z -> Z) (uid uid' : option Z) (u : user_row) :
  has_id uid' (set_message_count f uid u) = has_id uid' u.
Proof.
  unfold set_message_count. destruct (has_id uid u); reflexivity.
Qed.

(** The counts read back after an update of the counts of [uid]. *)
Lemma select_message_count_updated (f : Z -> Z) (d : db) (uid : option Z) :
  select_message_count
    (with_users d (map (set_message_count f uid) (users d))) uid
  = map f (select_message_count d uid).
Proof.
  unfold select_message_count, with_users. cbn [users].
  induction (users d) as [|u l IH]; [reflexivity|].
  cbn [map filter]. rewrite has_id_set_message_count.
  destruct (has_id uid u) eqn:Hu; [|exact IH].
  cbn [map]. rewrite IH. unfold set_message_count. rewrite Hu. reflexivity.
Qed.

Lemma message_count_of_updated (f : Z -> Z) (d : db) (uid : option Z) (n : Z) :
  message_count_of d uid = Some n ->
  message_count_of (with_users d (map (set_message_count f uid) (users d))) uid
  = Some (f n).
Proof.
  unfold message_count_of. rewrite select_message_count_updated.
  destruct (select_message_count d uid); [discriminate|].
  intros [= ->]. reflexivity.
Qed.

(** [increment_message_count] returns the count it stored. *)
Lemma increment_message_count_spec (d : db) (uid : option Z) (n : Z) :
  message_count_of d uid = Some n ->
  snd (increment_message_count d uid) = sqlite_add_one n
  /\ message_count_of (fst (increment_message_count d uid)) uid
     = Some (sqlite_add_one n).
Proof.
  intros Hn. unfold increment_message_count. cbn [fst snd].
  pose proof (message_count_of_updated sqlite_add_one d uid n Hn) as H.
  split; [|exact H].
  unfold message_count_of in H.
  destruct (select_message_count _ uid); [discriminate|].
  injection H as ->. reflexivity.
Qed.

(** The insert of [paid] against the UNIQUE constraint. *)
Lemma insert_payment_fresh (E : env) (d : db) (uid : option Z) (sig : string)
    (amount : spec_float) :
  (forall p, In p (payments d) -> payment_transaction_id p <> Some sig) ->
  exists d2,
    insert_payment E d uid (JStr sig) amount = Ok d2
    /\ users d2 = users d /\ messages d2 = messages d /\ wallets d2 = wallets d
    /\ payments d2 =
       (payments d ++
        [ {| payment_id :=
               next_autoincrement (seq_payments d) (map payment_id (payments d));
             payment_user_id := uid;
             payment_transaction_id := Some sig;
             payment_amount := amount;
             payment_status := "verified";
             payment_timestamp := current_timestamp E d |} ])%list.
Proof.
  intros Hfresh. unfold insert_payment. cbn [bind_text bind].
  destruct (existsb (fun p => sql_text_eq (payment_transaction_id p) (Some sig))
              (payments d)) eqn:Hex.
  - apply existsb_exists in Hex. destruct Hex as (p & Hp & Heq).
    exfalso. apply (Hfresh p Hp). unfold sql_text_eq in Heq.
    destruct (payment_transaction_id p) as [t|]; [|discriminate].
    apply String.eqb_eq in Heq. congruence.
  - eexists. split; [reflexivity|]. cbn. repeat split; reflexivity.
Qed.

Lemma insert_payment_used (E : env) (d : db) (uid : option Z) (sig : string)
    (amount : spec_float) :
  (exists p, In p (payments d) /\ payment_transaction_id p = Some sig) ->
  insert_payment E d uid (JStr sig) amount = Raise IntegrityError.
Proof.
  intros (p & Hp & Heq). unfold insert_payment. cbn [bind_text bind].
  assert (Hex : existsb (fun q => sql_text_eq (payment_transaction_id q) (Some sig))
                  (payments d) = true).
  { apply existsb_exists. exists p. split; [exact Hp|].
    rewrite Heq. cbn. apply String.eqb_refl. }
  rewrite Hex. reflexivity.
Qed.

Lemma truthy_signature (sig : string) : sig <> "" -> truthy (JStr sig) = true.
Proof.
  intros H. cbn. destruct (String.eqb sig "") eqn:Heq; [|reflexivity].
  apply String.eqb_eq in Heq. contradiction.
Qed.

End LedgerFacts.

(** ** The payment-confirmation command *)

Section PaidFacts.

Import bot.

Variable E : env.
Variable d : db.
Variable user : tg_user.

Local Abbreviation d1 := (ensure_user d (id user) (first_name user)).
Local Abbreviation uid := (get_user_id d1 (id user)).

(** [paid] when the wallet is bound and the verifier returns a signature. *)
Lemma paid_with_signature (address : string) (rest : list string) (sig : string) :
  select_wallet d1 uid = address :: rest ->
  utils.verify_payment E (CRYPTO_WALLET_ADDRESS E) address float_0_001
  = Ok (JStr sig) ->
  sig <> "" ->
  paid E d user =
  match insert_payment E d1 uid (JStr sig) float_0_001 with
  | Ok d2 =>
      {| out_db := reset_message_count d2 uid;
         out_events := [say "Payment verified!"];
         out_raised := None |}
  | Raise _ =>
      {| out_db := d1;
         out_events := [say "Payment already used!"];
         out_raised := None |}
  end.
Proof.
  intros Hw Hv Hs. unfold paid. rewrite Hw, Hv.
  rewrite (truthy_signature sig Hs). reflexivity.
Qed.

Lemma paid_verified (address : string) (rest : list string) (sig : string) :
  select_wallet d1 uid = address :: rest ->
  utils.verify_payment E (CRYPTO_WALLET_ADDRESS E) address float_0_001
  = Ok (JStr sig) ->
  sig <> "" ->
  (forall p, In p (payments d) -> payment_transaction_id p <> Some sig) ->
  payments (out_db (paid E d user))
  = (payments d ++ [verified_payment E d1 uid sig])%list
  /\ (forall n, message_count_of d1 uid = Some n ->
                message_count_of (out_db (paid E d user)) uid = Some 0)
  /\ wallets (out_db (paid E d user)) = wallets d
  /\ messages (out_db (paid E d user)) = messages d
  /\ out_events (paid E d user) = [say "Payment verified!"]
  /\ out_raised (paid E d user) = None.
Proof.
  intros Hw Hv Hs Hfresh.
  rewrite (paid_with_signature address rest sig Hw Hv Hs).
  destruct (ensure_user_frame d (id user) (first_name user))
    as (Hm & Hwa & Hp & _ & _ & Hsp & _).
  rewrite <- Hp in Hfresh.
  destruct (insert_payment_fresh E d1 uid sig float_0_001 Hfresh)
    as (d2 & -> & Hu2 & Hm2 & Hw2 & Hp2).
  cbn [out_db out_events out_raised].
  split; [|split; [|split; [|split; [|split]]]]; try reflexivity.
  - unfold reset_message_count, with_users. cbn [payments].
    rewrite Hp2. unfold verified_payment. rewrite Hp at 1. reflexivity.
  - intros n Hn.
    assert (Hn2 : message_count_of d2 uid = Some n).
    { unfold message_count_of, select_message_count in *. rewrite Hu2. exact Hn. }
    exact (message_count_of_updated (fun _ => 0) d2 uid n Hn2).
  - unfold reset_message_count, with_users. cbn [wallets]. congruence.
  - unfold reset_message_count, with_users. cbn [messages]. congruence.
Qed.



(** C1: when the verifier returns a signature that a payment row already
    carries, the insert fails on the UNIQUE constraint: no payment row is
    added, the message count of the user is not reset (the ledger is left
    as registration left it, and untouched for a known user), and the user
    is told that the payment was already used. *)
Theorem paid_used_signature_rejected (address : string) (rest : list string)
    (sig : string) :
  select_wallet d1 uid = address :: rest ->
  utils.verify_payment E (CRYPTO_WALLET_ADDRESS E) address float_0_001
  = Ok (JStr sig) ->
  sig <> "" ->
  (exists p, In p (payments d) /\ payment_transaction_id p = Some sig) ->
  let o := paid E d user in
  insert_payment E d1 uid (JStr sig) float_0_001 = Raise IntegrityError
  /\ out_db o = d1
  /\ payments (out_db o) = payments d
  /\ message_count_of (out_db o) uid = message_count_of d1 uid
  /\ (get_user_id d (id user) <> None -> out_db o = d)
  /\ out_events o = [say "Payment already used!"]
  /\ out_raised o = None.
Proof.
  intros Hw Hv Hs Hused o. subst o.
  destruct (ensure_user_frame d (id user) (first_name user))
    as (_ & _ & Hp & _).
  assert (Hi : insert_payment E d1 uid (JStr sig) float_0_001 = Raise IntegrityError).
  { apply insert_payment_used. rewrite Hp. exact Hused. }
  rewrite (paid_with_signature address rest sig Hw Hv Hs), Hi.
  cbn [out_db out_events out_raised].
  repeat split; try reflexivity; try assumption.
  intros Hk. apply ensure_user_known. exact Hk.
Qed.

End PaidFacts.



(** Alice confirms again with the transaction S1 that was already credited
    to her. *)
Lemma paid_used_signature_rejected_witness :
  let E := demo.world
             (demo.endpoint (demo.signatures ["S1"])
                [("S1", demo.detail
                          [demo.transfer demo.RECEIVER demo.SENDER 1000000])])
             "" in
  let d := demo.alice_db 21 true ["S1"] in
  bot.out_db (bot.paid E d demo.alice) = d
  /\ message_count_of (bot.out_db (bot.paid E d demo.alice)) (Some 1) = Some 21
  /\ bot.out_events (bot.paid E d demo.alice) = [bot.say "Payment already used!"].
Proof.
  cbv zeta.
  destruct (paid_used_signature_rejected
              (demo.world
                 (demo.endpoint (demo.signatures ["S1"])
                    [("S1", demo.detail
                              [demo.transfer demo.RECEIVER demo.SENDER 1000000])])
                 "")
              (demo.alice_db 21 true ["S1"]) demo.alice demo.SENDER [] "S1")
    as (_ & _ & _ & Hc & Hd & He & _).
  - reflexivity.
  - vm_compute. reflexivity.
  - discriminate.
  - eexists. split; [left; reflexivity | reflexivity].
  - split; [|split; [|exact He]].
    + apply Hd. discriminate.
    + exact Hc.
Defined.

(** ** Storing a message leaves the users alone *)

Section ChatFacts.

Import bot.

Variable E : env.

Lemma store_message_users (d0 d' : db) (u : option Z) (m : json) (role : string) :
  store_message E d0 u m role = Ok d' -> users d' = users d0.
Proof.
  unfold store_message. destruct (bind_text E m); cbn [bind]; [|discriminate].
  intros [= <-]. reflexivity.
Qed.

Lemma message_count_of_users (d0 d' : db) (u : option Z) :
  users d' = users d0 -> message_count_of d' u = message_count_of d0 u.
Proof.
  intros H. unfold message_count_of, select_message_count. rewrite H. reflexivity.
Qed.

End ChatFacts.

(** ** The wallet-binding command *)

Section WalletFacts.

Import bot.

Lemma filter_bound_map (uid : option Z) (address : string) (l : list wallet_row) :
  filter (fun w => sql_eq (wallet_user_id w) uid)
    (map (fun w => if sql_eq (wallet_user_id w) uid
                   then {| wallet_id := wallet_id w;
                           wallet_user_id := wallet_user_id w;
                           wallet_address := address |}
                   else w) l)
  = map (fun w => {| wallet_id := wallet_id w;
                     wallet_user_id := wallet_user_id w;
                     wallet_address := address |})
        (filter (fun w => sql_eq (wallet_user_id w) uid) l).
Proof.
  induction l as [|w l IH]; [reflexivity|].
  cbn [map filter]. destruct (sql_eq (wallet_user_id w) uid) eqn:Hb.
  - cbn [wallet_user_id]. rewrite Hb. cbn [map]. rewrite IH. reflexivity.
  - rewrite Hb. exact IH.
Qed.

(** The addresses bound to a user after the upsert: the new address, once
    per row the user had, once when the user had none. *)
Lemma select_wallet_upsert (d : db) (i : Z) (address : string) :
  select_wallet (upsert_wallet d (Some i) address) (Some i)
  = match select_wallet d (Some i) with
    | [] => [address]
    | l => map (fun _ => address) l
    end.
Proof.
  unfold select_wallet, upsert_wallet. cbn [wallets].
  destruct (existsb (fun w => sql_eq (wallet_user_id w) (Some i)) (wallets d))
    eqn:Hex.
  - rewrite filter_bound_map, !map_map. cbn [wallet_address].
    destruct (filter (fun w => sql_eq (wallet_user_id w) (Some i)) (wallets d))
      as [|w l] eqn:Hf; [|cbn [map]; rewrite map_map; reflexivity].
    apply existsb_filter_nil in Hf. congruence.
  - apply existsb_filter_nil in Hex. rewrite filter_app, Hex.
    cbn. rewrite Z.eqb_refl. reflexivity.
Qed.

Variable E : env.
Variable d : db.
Variable user : tg_user.

Local Abbreviation d1 := (ensure_user d (id user) (first_name user)).
Local Abbreviation uid := (get_user_id d1 (id user)).

(** C7, as the code has it: the wallet-binding command accepts its first
    argument exactly when it is 44 characters long and alphanumeric.  An
    accepted address becomes the bound wallet of the user, replacing the
    one bound before.  Any other argument is rejected without touching the
    wallets, the messages, the payments or any existing user row: the
    ledger is left as registration left it, and untouched for a known
    user. *)
Theorem wallet_binds_valid_address (address : string) (rest : list string) :
  let o := wallet E d user (address :: rest) in
  (String.length address = 44%nat /\ isalnum address = true ->
   out_db o = upsert_wallet d1 uid address
   /\ select_wallet (out_db o) uid <> []
   /\ (forall a, In a (select_wallet (out_db o) uid) -> a = address)
   /\ ((List.length (select_wallet d1 uid) <= 1)%nat ->
       select_wallet (out_db o) uid = [address])
   /\ users (out_db o) = users d1
   /\ messages (out_db o) = messages d
   /\ payments (out_db o) = payments d
   /\ out_events o =
      [Reply (JStr ("Your wallet address has been saved successfully: `"
                    ++ address ++ "`")) (Some "Markdown")]
   /\ out_raised o = None)
  /\
  (~ (String.length address = 44%nat /\ isalnum address = true) ->
   out_db o = d1
   /\ wallets (out_db o) = wallets d
   /\ messages (out_db o) = messages d
   /\ payments (out_db o) = payments d
   /\ (forall u, In u (users d) -> In u (users (out_db o)))
   /\ (get_user_id d (id user) <> None -> out_db o = d)
   /\ out_events o =
      [say "Invalid wallet address format. Please ensure it is a valid Solana wallet address."]
   /\ out_raised o = None).
Proof.
  intros o.
  assert (Ho : o = wallet E d user (address :: rest)) by reflexivity.
  clearbody o. unfold wallet in Ho.
  destruct (ensure_user_frame d (id user) (first_name user))
    as (Hm & Hw & Hp & _ & _ & _ & Hu).
  split.
  - intros (Hlen & Hal).
    apply Nat.eqb_eq in Hlen. rewrite Hlen, Hal in Ho. cbn [negb orb] in Ho.
    subst o. cbn [out_db out_events out_raised].
    destruct (ensure_user_registered d (id user) (first_name user)) as (i & Hi).
    rewrite Hi. rewrite select_wallet_upsert.
    split; [reflexivity|].
    split; [destruct (select_wallet d1 (Some i)); discriminate|].
    split.
    { intros a Ha. destruct (select_wallet d1 (Some i)) as [|x l].
      - destruct Ha as [<-|[]]. reflexivity.
      - apply in_map_iff in Ha. destruct Ha as (_ & <- & _). reflexivity. }
    split.
    { intros Hle. destruct (select_wallet d1 (Some i)) as [|x [|y l]];
        [reflexivity | reflexivity | cbn in Hle; lia]. }
    cbn [upsert_wallet users messages payments].
    repeat split; try reflexivity; assumption.
  - intros Hbad.
    assert (Hrej : negb (Nat.eqb (String.length address) 44)
                   || negb (isalnum address) = true).
    { destruct (Nat.eqb (String.length address) 44) eqn:Hlen; [|reflexivity].
      destruct (isalnum address) eqn:Hal; [|reflexivity].
      exfalso. apply Hbad. apply Nat.eqb_eq in Hlen. split; [exact Hlen|reflexivity]. }
    rewrite Hrej in Ho. subst o. cbn [out_db out_events out_raised].
    repeat split; try reflexivity; try assumption.
    intros Hk. apply ensure_user_known. exact Hk.
Qed.

End WalletFacts.

(** C7, as the claim states it, fails: an argument that is rejected still
    goes through [ensure_user], which writes the row of a user seen for
    the first time. *)
Lemma wallet_rejection_registers_new_user :
  ~ (forall (E : env) (d : db) (user : bot.tg_user) (address : string)
            (rest : list string),
        String.length address <> 44%nat \/ isalnum address = false ->
        bot.out_db (bot.wallet E d user (address :: rest)) = d).
Proof.
  intros H.
  specialize (H (demo.world (fun _ => Ok (demo.failure 503)) "")
                demo.empty_db demo.alice "abc" []).
  assert (Hbad : String.length "abc" <> 44%nat \/ isalnum "abc" = false).
  { left. cbn. lia. }
  specialize (H Hbad). vm_compute in H. discriminate H.
Qed.

(** Alice replaces her wallet by another valid address; a 43-character
    argument changes nothing. *)
Lemma wallet_binds_valid_address_witness :
  let E := demo.world (fun _ => Ok (demo.failure 503)) "" in
  let d := demo.alice_db 0 true [] in
  bot.select_wallet d (Some 1) = [demo.SENDER]
  /\ bot.select_wallet (bot.out_db (bot.wallet E d demo.alice [demo.OTHER])) (Some 1)
     = [demo.OTHER]
  /\ bot.out_db (bot.wallet E d demo.alice
                   ["9xQeWvG816bUx9EPjHmaT23yvVM2ZWbrrpZb9PusVFi"]) = d.
Proof.
  cbv zeta. split; [reflexivity|]. split.
  - destruct (proj1 (wallet_binds_valid_address
                       (demo.world (fun _ => Ok (demo.failure 503)) "")
                       (demo.alice_db 0 true []) demo.alice demo.OTHER []))
      as (_ & _ & _ & Hone & _).
    + split; reflexivity.
    + apply Hone. cbn. lia.
  - destruct (proj2 (wallet_binds_valid_address
                       (demo.world (fun _ => Ok (demo.failure 503)) "")
                       (demo.alice_db 0 true []) demo.alice
                       "9xQeWvG816bUx9EPjHmaT23yvVM2ZWbrrpZb9PusVFi" []))
      as (_ & _ & _ & _ & _ & Hsame & _).
    + intros (Hlen & _). cbn in Hlen. discriminate Hlen.
    + apply Hsame. discriminate.
Defined.

(** ** The reply of the model *)

Section ReplyFacts.

Import bot.

Variable E : env.
Variable history : list (option string * string).

Local Abbreviation full_prompt :=
  (String.concat LF (map (transcript_line E) history)).

(** C8, as the code has it: when the body of the model reply, once the
    code fences are removed, parses as an object with a string [message]
    and with a [plan], [generate_response] returns that message after one
    call of the model, whatever the [plan] is.  The [plan] is read before
    the message is returned: when it is absent the [KeyError] is caught and
    the text returned is the error text, not the message. *)
Theorem generate_response_returns_message (body : string)
    (fields : list (string * json)) (message : string) :
  generate_content E full_prompt = Ok body ->
  json_loads E (strip_fences body) = Ok (JObj fields) ->
  assoc "message" fields = Some (JStr message) ->
  (forall plan,
      assoc "plan" fields = Some plan ->
      generate_response E history = (JStr message, [ModelCall full_prompt]))
  /\ (assoc "plan" fields = None ->
      generate_response E history
      = (JStr ("Error: " ++ str_of_exn E (KeyError "plan")),
         [ModelCall full_prompt])).
Proof.
  intros Hg Hl Hm. unfold generate_response. rewrite Hg. cbn [bind].
  rewrite Hl. cbn [bind getitem].
  split.
  - intros plan Hp. rewrite Hp. cbn [bind]. rewrite Hm. reflexivity.
  - intros Hp. rewrite Hp. reflexivity.
Qed.

End ReplyFacts.

(** C8, as the claim states it, fails: the fenced reply
    [{"message": "hi"}] has a string [message] and no [plan], and what is
    returned is the error text ['plan'] instead of [hi]. *)
Lemma generate_response_requires_plan :
  ~ (forall (E : env) (history : list (option string * string)) (body : string)
            (fields : list (string * json)) (message : string),
        generate_content E (String.concat LF (map (bot.transcript_line E) history))
        = Ok body ->
        json_loads E (bot.strip_fences body) = Ok (JObj fields) ->
        assoc "message" fields = Some (JStr message) ->
        fst (bot.generate_response E history) = JStr message).
Proof.
  intros H.
  specialize (H (demo.world (fun _ => Ok (demo.failure 503))
                   ("```json" ++ LF ++ demo.body_message_only ++ LF ++ "```"))
                []
                ("```json" ++ LF ++ demo.body_message_only ++ LF ++ "```")
                [("message", JStr "hi")] "hi"
                eq_refl eq_refl eq_refl).
  vm_compute in H. discriminate H.
Qed.

(** The fenced reply [{"plan": [], "message": "hi"}] is answered by
    [hi]. *)
Lemma generate_response_returns_message_witness :
  let reply := "```json" ++ LF ++ demo.body_with_plan ++ LF ++ "```" in
  let E := demo.world (fun _ => Ok (demo.failure 503)) reply in
  bot.strip_fences reply = demo.body_with_plan
  /\ bot.generate_response E [] = (JStr "hi", [bot.ModelCall ""]).
Proof.
  cbv zeta. split; [reflexivity|].
  apply (proj1 (generate_response_returns_message
                  (demo.world (fun _ => Ok (demo.failure 503))
                     ("```json" ++ LF ++ demo.body_with_plan ++ LF ++ "```"))
                  []
                  ("```json" ++ LF ++ demo.body_with_plan ++ LF ++ "```")
                  [("plan", JArr []); ("message", JStr "hi")] "hi"
                  eq_refl eq_refl eq_refl)
           (JArr [])).
  reflexivity.
Defined.

Example generate_response_without_plan :
  fst (bot.generate_response
         (demo.world (fun _ => Ok (demo.failure 503)) demo.body_message_only) [])
  = JStr "Error: 'plan'".
Proof. reflexivity. Qed.

(** Alice's fifth message is stored, sent to the model with the transcript
    so far, and answered with the [message] of the reply. *)
Example chat_under_threshold :
  let E := demo.world (fun _ => Ok (demo.failure 503)) demo.body_with_plan in
  let o := bot.chat E (demo.alice_db 4 false []) demo.alice "hello" in
  bot.out_events o = [bot.ModelCall "User: hello"; bot.Reply (JStr "hi") None]
  /\ map (fun m => (message_text m, message_role m)) (messages (bot.out_db o))
     = [(Some "hello", "user"); (Some "hi", "bot")]
  /\ message_count_of (bot.out_db o) (Some 1) = Some 5.
Proof. vm_compute. repeat split; reflexivity. Qed.

(** * Further properties of the code *)

(** ** What a returned signature stands for *)

Section Soundness.

Variable E : env.
Variables receiving_wallet sender_wallet : string.
Variable expected_amount : spec_float.

Local Abbreviation matches :=
  (transaction_matches E receiving_wallet sender_wallet expected_amount).
Local Abbreviation scan :=
  (utils.scan_transactions E receiving_wallet sender_wallet expected_amount).
Local Abbreviation scan_inner :=
  (utils.scan_instructions E receiving_wallet sender_wallet expected_amount).
Local Abbreviation imatch :=
  (utils.instruction_matches E receiving_wallet sender_wallet expected_amount).
Local Abbreviation verify :=
  (utils.verify_payment E receiving_wallet sender_wallet expected_amount).

Lemma eq_str_true (v : json) (s : string) : eq_str v s = true -> v = JStr s.
Proof.
  destruct v; cbn; try discriminate.
  intros H. apply String.eqb_eq in H. congruence.
Qed.

(** An instruction makes the inner loop return only if it is a parsed
    instruction to the receiving address, from the sender, of an amount
    that compares equal to the expected one. *)
Lemma instruction_matches_sound (i : json) :
  imatch i = Ok true ->
  exists info lamports amount_received,
    instruction_info i = Some info
    /\ assoc "destination" info = Some (JStr receiving_wallet)
    /\ assoc "source" info = Some (JStr sender_wallet)
    /\ py_int E (match assoc "lamports" info with
                 | Some v => v
                 | None => JInt 0
                 end) = Ok lamports
    /\ truediv lamports float_1e9 = Ok amount_received
    /\ SFeqb amount_received expected_amount = true.
Proof.
  unfold utils.instruction_matches, utils.parsed_info, instruction_info.
  destruct i as [| | | | | |fields]; try discriminate.
  cbn [dict_get bind].
  destruct (assoc "parsed" fields) as [parsed|]; [|discriminate].
  destruct (truthy parsed) eqn:Ht; [|discriminate].
  destruct parsed as [| | | | | |pfields]; try discriminate.
  cbn [dict_get bind].
  destruct (assoc "info" pfields) as [info|]; [|discriminate].
  destruct info as [| | | | | |info]; try discriminate.
  cbn [dict_get bind].
  destruct (assoc "destination" info) as [dest|] eqn:Hdest; [|discriminate].
  destruct (eq_str dest receiving_wallet) eqn:Hd; [|discriminate].
  apply eq_str_true in Hd. subst dest.
  destruct (py_int E match assoc "lamports" info with
                     | Some v => v
                     | None => JInt 0
                     end) as [lamports|e] eqn:Hl; cbn [bind]; [|discriminate].
  destruct (truediv lamports float_1e9) as [a|e] eqn:Ha; cbn [bind]; [|discriminate].
  intros [= H]. apply andb_true_iff in H. destruct H as (Hs & He).
  destruct (assoc "source" info) as [src|] eqn:Hsrc; [|discriminate].
  apply eq_str_true in Hs. subst src.
  exists info, lamports, a. repeat split; try reflexivity; assumption.
Qed.

Lemma scan_instructions_sound (l : list json) :
  scan_inner l = Ok true -> exists i, In i l /\ imatch i = Ok true.
Proof.
  induction l as [|i l IH]; [discriminate|].
  cbn [utils.scan_instructions].
  destruct (utils.instruction_matches E receiving_wallet sender_wallet
              expected_amount i) as [[|]|e] eqn:Hi; cbn [bind]; try discriminate.
  - intros _. exists i. split; [left; reflexivity | exact Hi].
  - intros H. destruct (IH H) as (j & Hj & Hm).
    exists j. split; [right; exact Hj | exact Hm].
Qed.

Lemma transaction_matches_sound (txn : json) :
  matches txn = Ok true ->
  exists signature l,
    fetch_instructions E txn = Ok (signature, Some l) /\ scan_inner l = Ok true.
Proof.
  unfold transaction_matches.
  destruct (fetch_instructions E txn) as [[signature [l|]]|e]; cbn [bind snd];
    try discriminate.
  intros H. exists signature, l. split; [reflexivity | exact H].
Qed.

(** The scan returns [None] or the signature of the first entry that
    matches. *)
Lemma scan_transactions_sound (l : list json) (v : json) :
  scan l = Ok v ->
  v = JNull
  \/ exists pre txn post,
       l = (pre ++ txn :: post)%list
       /\ Forall (fun t => matches t = Ok false) pre
       /\ matches txn = Ok true
       /\ getitem txn "signature" = Ok v.
Proof.
  revert v. induction l as [|t l IH]; intros v.
  - intros [= <-]. left. reflexivity.
  - rewrite scan_transactions_cons.
    destruct (transaction_matches E receiving_wallet sender_wallet
                expected_amount t) as [[|]|e] eqn:Ht; cbn [bind]; try discriminate.
    + intros Hs. right. exists [], t, l.
      repeat split; [constructor | exact Ht | exact Hs].
    + intros Hs. destruct (IH v Hs) as [->|(pre & txn & post & -> & Hp & Hm & Hg)];
        [left; reflexivity|].
      right. exists (t :: pre), txn, post.
      repeat split; [constructor; assumption | exact Hm | exact Hg].
Qed.

(** Whatever the RPC answers: when [verify_payment] returns something
    other than [None], it is the signature of an entry of the signature
    list whose detail was fetched with status 200 and holds a parsed
    instruction with destination = receiving address, source = sender and
    an amount (its [lamports], 0 when absent, divided by [1e9]) that
    compares equal to the expected amount; and no entry before it
    matched. *)
Theorem verify_payment_sound (v : json) :
  verify = Ok v ->
  v <> JNull ->
  exists pre txn post instructions i info lamports amount_received,
    signature_list E sender_wallet = Ok (Some (pre ++ txn :: post)%list)
    /\ Forall (fun t => matches t = Ok false) pre
    /\ fetch_instructions E txn = Ok (v, Some instructions)
    /\ In i instructions
    /\ instruction_info i = Some info
    /\ assoc "destination" info = Some (JStr receiving_wallet)
    /\ assoc "source" info = Some (JStr sender_wallet)
    /\ py_int E (match assoc "lamports" info with
                 | Some x => x
                 | None => JInt 0
                 end) = Ok lamports
    /\ truediv lamports float_1e9 = Ok amount_received
    /\ SFeqb amount_received expected_amount = true.
Proof.
  rewrite verify_payment_listing.
  destruct (signature_list E sender_wallet) as [[l|]|e] eqn:Hl; cbn [bind];
    [| intros [= <-] Hv; contradiction | discriminate].
  intros Hs Hv.
  destruct (scan_transactions_sound l v Hs)
    as [->|(pre & txn & post & -> & Hp & Hm & Hg)]; [contradiction|].
  destruct (transaction_matches_sound txn Hm) as (sig & instrs & Hf & Hi).
  pose proof (fetch_instructions_signature E txn sig _ Hf) as Hsig.
  rewrite Hg in Hsig. injection Hsig as <-.
  destruct (scan_instructions_sound instrs Hi) as (i & Hin & Him).
  destruct (instruction_matches_sound i Him)
    as (info & lamports & a & H1 & H2 & H3 & H4 & H5 & H6).
  exists pre, txn, post, instrs, i, info, lamports, a.
  repeat split; assumption.
Qed.

End Soundness.

(** The transaction S1 of the examples, returned for a payment of 0.001. *)
Lemma verify_payment_sound_witness :
  let E := demo.world
             (demo.endpoint (demo.signatures ["S0"; "S1"])
                [("S0", demo.detail
                          [demo.transfer demo.OTHER demo.SENDER 1000000]);
                 ("S1", demo.detail
                          [demo.transfer demo.RECEIVER demo.SENDER 1000000])])
             "" in
  exists pre txn post instructions,
    signature_list E demo.SENDER = Ok (Some (pre ++ txn :: post)%list)
    /\ fetch_instructions E txn = Ok (JStr "S1", Some instructions).
Proof.
  cbv zeta.
  destruct (verify_payment_sound
              (demo.world
                 (demo.endpoint (demo.signatures ["S0"; "S1"])
                    [("S0", demo.detail
                              [demo.transfer demo.OTHER demo.SENDER 1000000]);
                     ("S1", demo.detail
                              [demo.transfer demo.RECEIVER demo.SENDER 1000000])])
                 "")
              demo.RECEIVER demo.SENDER float_0_001 (JStr "S1"))
    as (pre & txn & post & instrs & _ & _ & _ & _ & Hl & _ & Hf & _).
  - vm_compute. reflexivity.
  - discriminate.
  - exists pre, txn, post, instrs. split; assumption.
Defined.

(** ** The constraints of the schema are kept *)

Section SchemaFacts.

Import bot.

Lemma fold_left_max_base (l : list Z) (a : Z) : a <= fold_left Z.max l a.
Proof.
  revert a. induction l as [|y l IH]; intros a; cbn [fold_left]; [lia|].
  specialize (IH (Z.max a y)). lia.
Qed.

Lemma fold_left_max_ge (l : list Z) (a x : Z) :
  x = a \/ In x l -> x <= fold_left Z.max l a.
Proof.
  intros [->|Hx]; [apply fold_left_max_base|].
  revert a. induction l as [|y l IH]; intros a; [destruct Hx|].
  cbn [fold_left]. destruct Hx as [<-|Hx].
  - pose proof (fold_left_max_base l (Z.max a y)). lia.
  - apply IH. exact Hx.
Qed.

(** The rowid drawn for a new row is above every rowid in use. *)
Lemma next_rowid_fresh (ids : list Z) (x : Z) :
  In x ids -> x < next_rowid ids.
Proof.
  unfold next_rowid, max_rowid. destruct ids as [|i rest]; [intros []|].
  intros H. pose proof (fold_left_max_ge rest i x) as Hle.
  destruct H as [<-|H]; [specialize (Hle (or_introl eq_refl))
                        | specialize (Hle (or_intror H))]; lia.
Qed.

Lemma next_autoincrement_fresh (seq : Z) (ids : list Z) (x : Z) :
  In x ids -> x < next_autoincrement seq ids.
Proof.
  unfold next_autoincrement, max_rowid. destruct ids as [|i rest]; [intros []|].
  intros H. pose proof (fold_left_max_ge rest i x) as Hle.
  destruct H as [<-|H]; [specialize (Hle (or_introl eq_refl))
                        | specialize (Hle (or_intror H))]; lia.
Qed.

Lemma NoDup_snoc {A : Type} (l : list A) (x : A) :
  NoDup l -> ~ In x l -> NoDup (l ++ [x]).
Proof.
  intros Hl Hx. apply NoDup_app; [exact Hl | repeat constructor; intros [] |].
  intros a Ha [<-|[]]. exact (Hx Ha).
Qed.

Lemma NoDup_snoc_above (l : list Z) (x : Z) :
  NoDup l -> (forall y, In y l -> y < x) -> NoDup (l ++ [x]).
Proof.
  intros Hl Hx. apply NoDup_snoc; [exact Hl|].
  intros Hin. specialize (Hx x Hin). lia.
Qed.

Lemma in_somes {A : Type} (l : list (option A)) (a : A) :
  In a (somes l) <-> In (Some a) l.
Proof.
  unfold somes. rewrite in_flat_map. split.
  - intros ([b|] & Hb & Ha); [|destruct Ha].
    destruct Ha as [<-|[]]. exact Hb.
  - intros H. exists (Some a). split; [exact H | left; reflexivity].
Qed.

Lemma somes_snoc {A : Type} (l : list (option A)) (o : option A) :
  somes (l ++ [o]) = (somes l ++ match o with Some a => [a] | None => [] end)%list.
Proof.
  unfold somes. rewrite flat_map_app. cbn. rewrite app_nil_r. reflexivity.
Qed.

Lemma NoDup_somes_snoc {A : Type} (l : list (option A)) (o : option A) :
  NoDup (somes l) -> ~ In o l \/ o = None -> NoDup (somes (l ++ [o])).
Proof.
  intros Hl Ho. rewrite somes_snoc. destruct o as [a|]; [|rewrite app_nil_r; exact Hl].
  apply NoDup_snoc; [exact Hl|]. rewrite in_somes.
  destruct Ho as [Ho|Ho]; [exact Ho | discriminate].
Qed.

Lemma map_set_message_count_ids (f : Z -> Z) (uid : option Z) (l : list user_row) :
  map user_id (map (set_message_count f uid) l) = map user_id l
  /\ map user_telegram_id (map (set_message_count f uid) l) = map user_telegram_id l.
Proof.
  rewrite !map_map. split; apply map_ext; intros u; unfold set_message_count;
    destruct (has_id uid u); reflexivity.
Qed.

Lemma ensure_user_ok (d : db) (telegram_id : Z) (name : string) :
  ledger_ok d -> ledger_ok (ensure_user d telegram_id name).
Proof.
  intros [H1 H2 H3 H4 H5 H6 H7]. unfold ensure_user.
  destruct (existsb (fun u => Z.eqb (user_telegram_id u) telegram_id) (users d))
    eqn:Hex; [constructor; assumption|].
  constructor; cbn; try assumption.
  - rewrite map_app. cbn. apply NoDup_snoc_above; [exact H1|].
    apply next_rowid_fresh.
  - rewrite map_app. cbn. apply NoDup_snoc; [exact H2|].
    intros Hin. apply in_map_iff in Hin. destruct Hin as (u & Hu & Hin).
    assert (Ht : existsb (fun u => Z.eqb (user_telegram_id u) telegram_id) (users d)
                 = true).
    { apply existsb_exists. exists u. split; [exact Hin|]. apply Z.eqb_eq. exact Hu. }
    congruence.
Qed.

Lemma set_counts_ok (f : Z -> Z) (d : db) (uid : option Z) :
  ledger_ok d ->
  ledger_ok (with_users d (map (set_message_count f uid) (users d))).
Proof.
  intros [H1 H2 H3 H4 H5 H6 H7].
  destruct (map_set_message_count_ids f uid (users d)) as (Hi & Ht).
  constructor; cbn; try assumption; [rewrite Hi | rewrite Ht]; assumption.
Qed.

Lemma store_message_ok (E : env) (d d' : db) (uid : option Z) (m : json)
    (role : string) :
  store_message E d uid m role = Ok d' -> ledger_ok d -> ledger_ok d'.
Proof.
  unfold store_message. destruct (bind_text E m) as [t|e]; cbn [bind]; [|discriminate].
  intros [= <-] [H1 H2 H3 H4 H5 H6 H7]. constructor; cbn; try assumption.
  rewrite map_app. cbn. apply NoDup_snoc_above; [exact H3|].
  apply next_autoincrement_fresh.
Qed.

Lemma insert_payment_ok (E : env) (d d' : db) (uid : option Z) (txn_id : json)
    (amount : spec_float) :
  insert_payment E d uid txn_id amount = Ok d' -> ledger_ok d -> ledger_ok d'.
Proof.
  unfold insert_payment. destruct (bind_text E txn_id) as [t|e]; cbn [bind];
    [|discriminate].
  destruct (existsb (fun p => sql_text_eq (payment_transaction_id p) t) (payments d))
    eqn:Hex; [discriminate|].
  intros [= <-] [H1 H2 H3 H4 H5 H6 H7]. constructor; cbn; try assumption.
  - rewrite map_app. cbn. apply NoDup_snoc_above; [exact H5|].
    apply next_autoincrement_fresh.
  - rewrite map_app. cbn. apply NoDup_somes_snoc; [exact H7|].
    destruct t as [s|]; [left | right; reflexivity].
    intros Hin. apply in_map_iff in Hin. destruct Hin as (p & Hp & Hin).
    assert (Ht : existsb (fun q => sql_text_eq (payment_transaction_id q) (Some s))
                   (payments d) = true).
    { apply existsb_exists. exists p. split; [exact Hin|].
      rewrite Hp. cbn. apply String.eqb_refl. }
    congruence.
Qed.

Lemma upsert_wallet_ok (d : db) (uid : option Z) (address : string) :
  ledger_ok d -> ledger_ok (upsert_wallet d uid address).
Proof.
  intros [H1 H2 H3 H4 H5 H6 H7]. unfold upsert_wallet.
  destruct (existsb (fun w => sql_eq (wallet_user_id w) uid) (wallets d)) eqn:Hex;
    constructor; cbn [users messages wallets payments]; try assumption.
  - rewrite map_map.
    rewrite (map_ext _ wallet_id); [exact H4|].
    intros w. destruct (sql_eq (wallet_user_id w) uid); reflexivity.
  - rewrite map_map.
    rewrite (map_ext _ wallet_user_id); [exact H6|].
    intros w. destruct (sql_eq (wallet_user_id w) uid); reflexivity.
  - rewrite map_app. cbn. apply NoDup_snoc_above; [exact H4|].
    apply next_autoincrement_fresh.
  - rewrite map_app. cbn. apply NoDup_somes_snoc; [exact H6|].
    destruct uid as [i|]; [left | right; reflexivity].
    intros Hin. apply in_map_iff in Hin. destruct Hin as (w & Hw & Hin).
    assert (Ht : existsb (fun w => sql_eq (wallet_user_id w) (Some i)) (wallets d)
                 = true).
    { apply existsb_exists. exists w. split; [exact Hin|].
      rewrite Hw. cbn. apply Z.eqb_refl. }
    congruence.
Qed.

(** Every handler leaves a ledger that satisfies the constraints of the
    schema, and so does every sequence of updates: no two users share an
    id or a telegram id, no user has two wallet rows, and no transaction
    identifier is credited twice. *)
Theorem handlers_keep_schema (E : env) (d : db) (updates : list (tg_user * command)) :
  ledger_ok d ->
  (forall user c, ledger_ok (out_db (handle E d user c)))
  /\ ledger_ok (run E d updates).
Proof.
  assert (Hstep : forall d0 user c, ledger_ok d0 ->
                                    ledger_ok (out_db (handle E d0 user c))).
  { intros d0 user c Hd.
    pose proof (ensure_user_ok d0 (id user) (first_name user) Hd) as H1.
    destruct c as [| |args|user_message]; cbn [handle].
    - exact H1.
    - unfold paid.
      destruct (select_wallet _ _) as [|address rest]; [exact H1|].
      destruct (utils.verify_payment E (CRYPTO_WALLET_ADDRESS E) address float_0_001)
        as [txn_id|e]; [|exact H1].
      destruct (truthy txn_id); [|exact H1].
      destruct (insert_payment E _ _ txn_id float_0_001) as [d2|e] eqn:Hi; [|exact H1].
      cbn [out_db]. apply set_counts_ok.
      exact (insert_payment_ok E _ d2 _ txn_id float_0_001 Hi H1).
    - unfold wallet. destruct args as [|address rest]; [exact H1|].
      destruct (negb (Nat.eqb (String.length address) 44) || negb (isalnum address));
        [exact H1|].
      cbn [out_db]. apply upsert_wallet_ok. exact H1.
    - unfold chat.
      pose proof (set_counts_ok sqlite_add_one _
                    (get_user_id (ensure_user d0 (id user) (first_name user)) (id user))
                    H1) as H2.
      unfold increment_message_count.
      destruct (Z.gtb _ 20).
      + destruct (select_wallet _ _); exact H2.
      + destruct (store_message E _ _ (JStr user_message) "user") as [d3|e] eqn:H3;
          [|exact H2].
        pose proof (store_message_ok E _ d3 _ _ _ H3 H2) as H3'.
        destruct (generate_response E _) as (bot_response, calls).
        destruct (store_message E d3 _ bot_response "bot") as [d4|e] eqn:H4;
          [|exact H3'].
        exact (store_message_ok E _ d4 _ _ _ H4 H3'). }
  intros Hd. split; [intros user c; apply Hstep; exact Hd|].
  revert d Hd. induction updates as [|[user c] rest IH]; intros d Hd; [exact Hd|].
  cbn [run]. apply IH. apply Hstep. exact Hd.
Qed.

End SchemaFacts.

(** ** What a handler leaves alone *)

Section FrameFacts.

Import bot.

Lemma extends_refl (tid : Z) (uid : option Z) (d : db) : extends tid uid d d.
Proof.
  constructor; auto. intros u Hu. exists u. auto.
Qed.

Lemma extends_trans (tid : Z) (uid : option Z) (d d' d'' : db) :
  extends tid uid d d' -> extends tid uid d' d'' -> extends tid uid d d''.
Proof.
  intros [A1 A2 A3 A4 A5 A6] [B1 B2 B3 B4 B5 B6]. constructor.
  - intros j Hj. rewrite (B1 j Hj). exact (A1 j Hj).
  - intros t Ht. rewrite (B2 t Ht). exact (A2 t Ht).
  - intros j Hj. rewrite (B3 j Hj). exact (A3 j Hj).
  - auto.
  - auto.
  - intros u Hu. destruct (A6 u Hu) as (u' & Hu' & Hi & Ht & Hn).
    destruct (B6 u' Hu') as (u'' & Hu'' & Hi' & Ht' & Hn').
    exists u''. repeat split; congruence.
Qed.

(** The id of a user registered by [ensure_user] is the rowid drawn. *)
Lemma ensure_user_new_id (d : db) (telegram_id : Z) (name : string) :
  existsb (fun u => Z.eqb (user_telegram_id u) telegram_id) (users d) = false ->
  get_user_id (ensure_user d telegram_id name) telegram_id
  = Some (next_rowid (map user_id (users d))).
Proof.
  intros Hex. unfold ensure_user. rewrite Hex.
  apply existsb_filter_nil in Hex. unfold get_user_id, with_users. cbn [users].
  rewrite filter_app, Hex. cbn. rewrite Z.eqb_refl. reflexivity.
Qed.

Lemma ensure_user_extends (d : db) (telegram_id : Z) (name : string) :
  extends telegram_id (get_user_id (ensure_user d telegram_id name) telegram_id)
    d (ensure_user d telegram_id name).
Proof.
  destruct (existsb (fun u => Z.eqb (user_telegram_id u) telegram_id) (users d))
    eqn:Hex.
  - unfold ensure_user. rewrite Hex. apply extends_refl.
  - rewrite (ensure_user_new_id d telegram_id name Hex).
    unfold ensure_user. rewrite Hex.
    constructor; cbn [with_users users messages wallets payments]; auto.
    + intros j Hj. unfold select_message_count, with_users. cbn [users].
      rewrite filter_app. cbn [filter has_id sql_eq user_id].
      destruct (Z.eqb (next_rowid (map user_id (users d))) j) eqn:Heq.
      * apply Z.eqb_eq in Heq. congruence.
      * rewrite app_nil_r. reflexivity.
    + intros t Ht. unfold get_user_id, with_users. cbn [users].
      rewrite filter_app. cbn [filter user_telegram_id].
      destruct (Z.eqb telegram_id t) eqn:Heq.
      * apply Z.eqb_eq in Heq. congruence.
      * rewrite app_nil_r. reflexivity.
    + intros u Hu. exists u. repeat split; try reflexivity.
      apply in_or_app. left. exact Hu.
Qed.

Lemma set_counts_extends (f : Z -> Z) (tid : Z) (uid : option Z) (d : db) :
  extends tid uid d (with_users d (map (set_message_count f uid) (users d))).
Proof.
  constructor; cbn [with_users users messages wallets payments]; auto.
  - intros j Hj. unfold select_message_count, with_users. cbn [users].
    induction (users d) as [|u l IH]; [reflexivity|].
    cbn [map filter]. rewrite has_id_set_message_count.
    destruct (has_id (Some j) u) eqn:Hu; [|exact IH].
    cbn [map]. rewrite IH. f_equal.
    unfold set_message_count. destruct (has_id uid u) eqn:Hu'; [|reflexivity].
    exfalso. apply Hj. unfold has_id, sql_eq in Hu, Hu'.
    destruct uid as [i|]; [|discriminate].
    apply Z.eqb_eq in Hu, Hu'. congruence.
  - intros t _. unfold get_user_id, with_users. cbn [users].
    induction (users d) as [|u l IH]; [reflexivity|].
    cbn [map filter].
    assert (Ht : user_telegram_id (set_message_count f uid u) = user_telegram_id u)
      by (unfold set_message_count; destruct (has_id uid u); reflexivity).
    assert (Hi : user_id (set_message_count f uid u) = user_id u)
      by (unfold set_message_count; destruct (has_id uid u); reflexivity).
    rewrite Ht. destruct (Z.eqb (user_telegram_id u) t); [rewrite Hi; reflexivity|].
    exact IH.
  - intros u Hu. exists (set_message_count f uid u). split.
    + apply in_map. exact Hu.
    + unfold set_message_count. destruct (has_id uid u); repeat split; reflexivity.
Qed.

Lemma store_message_extends (E : env) (tid : Z) (uid u : option Z) (d d' : db)
    (m : json) (role : string) :
  store_message E d u m role = Ok d' -> extends tid uid d d'.
Proof.
  unfold store_message. destruct (bind_text E m); cbn [bind]; [|discriminate].
  intros [= <-]. constructor; cbn; auto.
  - intros x Hx. apply in_or_app. left. exact Hx.
  - intros x Hx. exists x. auto.
Qed.

Lemma insert_payment_extends (E : env) (tid : Z) (uid u : option Z) (d d' : db)
    (txn_id : json) (amount : spec_float) :
  insert_payment E d u txn_id amount = Ok d' -> extends tid uid d d'.
Proof.
  unfold insert_payment. destruct (bind_text E txn_id); cbn [bind]; [|discriminate].
  destruct (existsb _ (payments d)); [discriminate|].
  intros [= <-]. constructor; cbn; auto.
  - intros x Hx. apply in_or_app. left. exact Hx.
  - intros x Hx. exists x. auto.
Qed.

(** The upsert leaves the wallets of the other users alone. *)
Lemma upsert_wallet_extends (tid : Z) (uid : option Z) (d : db) (address : string) :
  extends tid uid d (upsert_wallet d uid address).
Proof.
  constructor; cbn [upsert_wallet users messages wallets payments]; auto.
  - intros j Hj. unfold select_wallet, upsert_wallet. cbn [wallets].
    destruct (existsb (fun w => sql_eq (wallet_user_id w) uid) (wallets d)).
    + induction (wallets d) as [|w l IH]; [reflexivity|].
      cbn [map filter].
      destruct (sql_eq (wallet_user_id w) uid) eqn:Hw; cbn [wallet_user_id].
      * destruct (sql_eq (wallet_user_id w) (Some j)) eqn:Hw'; [|exact IH].
        exfalso. apply Hj. unfold sql_eq in Hw, Hw'.
        destruct (wallet_user_id w) as [k|]; [|discriminate].
        destruct uid as [i|]; [|discriminate].
        apply Z.eqb_eq in Hw, Hw'. congruence.
      * destruct (sql_eq (wallet_user_id w) (Some j)); [|exact IH].
        cbn [map]. rewrite IH. reflexivity.
    + rewrite filter_app. cbn [filter wallet_user_id].
      destruct (sql_eq uid (Some j)) eqn:Hu.
      * exfalso. apply Hj. unfold sql_eq in Hu. destruct uid as [i|]; [|discriminate].
        apply Z.eqb_eq in Hu. congruence.
      * rewrite app_nil_r. reflexivity.
  - intros u Hu. exists u. auto.
Qed.

(** Whatever command a user sends, and whatever the RPC and the model
    answer, the handler leaves the message counts, the ids and the wallets
    of all other users as they were, and it removes no payment, no message
    and no user. *)
Theorem handlers_touch_the_sender_only (E : env) (d : db) (user : tg_user)
    (c : command) :
  extends (id user)
    (get_user_id (ensure_user d (id user) (first_name user)) (id user))
    d (out_db (handle E d user c)).
Proof.
  pose proof (ensure_user_extends d (id user) (first_name user)) as H1.
  set (d1 := ensure_user d (id user) (first_name user)) in *.
  set (uid := get_user_id d1 (id user)) in *.
  destruct c as [| |args|user_message]; cbn [handle].
  - exact H1.
  - unfold paid. fold d1. fold uid.
    destruct (select_wallet d1 uid) as [|address rest]; [exact H1|].
    destruct (utils.verify_payment E (CRYPTO_WALLET_ADDRESS E) address float_0_001)
      as [txn_id|e]; [|exact H1].
    destruct (truthy txn_id); [|exact H1].
    destruct (insert_payment E d1 uid txn_id float_0_001) as [d2|e] eqn:Hi;
      [|exact H1].
    cbn [out_db]. apply (extends_trans _ _ _ d1); [exact H1|].
    apply (extends_trans _ _ _ d2);
      [exact (insert_payment_extends E _ _ _ _ _ _ _ Hi)|].
    apply set_counts_extends.
  - unfold wallet. fold d1. fold uid. destruct args as [|address rest]; [exact H1|].
    destruct (negb (Nat.eqb (String.length address) 44) || negb (isalnum address));
      [exact H1|].
    cbn [out_db]. apply (extends_trans _ _ _ d1); [exact H1|].
    apply upsert_wallet_extends.
  - unfold chat. fold d1. fold uid. unfold increment_message_count.
    pose proof (set_counts_extends sqlite_add_one (id user) uid d1) as H2.
    pose proof (extends_trans _ _ _ _ _ H1 H2) as H12.
    destruct (Z.gtb _ 20).
    + destruct (select_wallet _ uid); exact H12.
    + destruct (store_message E _ uid (JStr user_message) "user") as [d3|e] eqn:H3;
        [|exact H12].
      pose proof (extends_trans _ _ _ _ _ H12
                    (store_message_extends E (id user) uid _ _ _ _ _ H3)) as H13.
      destruct (generate_response E _) as (bot_response, calls).
      destruct (store_message E d3 uid bot_response "bot") as [d4|e] eqn:H4;
        [|exact H13].
      exact (extends_trans _ _ _ _ _ H13
               (store_message_extends E (id user) uid _ _ _ _ _ H4)).
Qed.

End FrameFacts.

(** ** The history of a user *)

Section HistoryFacts.

Import bot.

Lemma order_by_timestamp_snoc (l : list message_row) (m : message_row) :
  order_by_timestamp (l ++ [m]) = insert_by_timestamp m (order_by_timestamp l).
Proof.
  unfold order_by_timestamp. rewrite fold_left_app. reflexivity.
Qed.

Lemma insert_by_timestamp_perm (m : message_row) (s : list message_row) :
  Permutation (m :: s) (insert_by_timestamp m s).
Proof.
  induction s as [|x s IH]; cbn [insert_by_timestamp]; [reflexivity|].
  destruct (Z.ltb (message_timestamp m) (message_timestamp x)); [reflexivity|].
  rewrite perm_swap. apply perm_skip. exact IH.
Qed.

Lemma order_by_timestamp_perm (l : list message_row) :
  Permutation l (order_by_timestamp l).
Proof.
  induction l as [|m l IH] using rev_ind; [reflexivity|].
  rewrite order_by_timestamp_snoc, <- insert_by_timestamp_perm.
  rewrite Permutation_app_comm. cbn. apply perm_skip. exact IH.
Qed.

Lemma insert_by_timestamp_sorted (m : message_row) (s : list message_row) :
  StronglySorted timestamp_le s ->
  StronglySorted timestamp_le (insert_by_timestamp m s).
Proof.
  induction 1 as [|x s Hs IH Hx]; cbn [insert_by_timestamp].
  - repeat constructor.
  - destruct (Z.ltb (message_timestamp m) (message_timestamp x)) eqn:Hlt.
    + apply Z.ltb_lt in Hlt. constructor; [constructor; assumption|].
      constructor; [unfold timestamp_le; lia|].
      eapply Forall_impl; [|exact Hx]. unfold timestamp_le. intros y Hy. lia.
    + apply Z.ltb_ge in Hlt. constructor; [exact IH|].
      apply (Permutation_Forall (insert_by_timestamp_perm m s)).
      constructor; [exact Hlt | exact Hx].
Qed.

Lemma order_by_timestamp_sorted (l : list message_row) :
  StronglySorted timestamp_le (order_by_timestamp l).
Proof.
  induction l as [|m l IH] using rev_ind; [constructor|].
  rewrite order_by_timestamp_snoc. apply insert_by_timestamp_sorted. exact IH.
Qed.

(** [get_user_history] returns the text and role of the messages of the
    user, each stored row once and no row of anybody else (nor a row
    stored without a user id), by increasing timestamp. *)
Theorem get_user_history_sorted (d : db) (uid : option Z) :
  exists rows,
    get_user_history d uid = map history_entry rows
    /\ Permutation rows (filter (message_of uid) (messages d))
    /\ StronglySorted timestamp_le rows
    /\ (forall m, In m rows -> exists i, uid = Some i /\ message_user_id m = Some i).
Proof.
  exists (order_by_timestamp (filter (message_of uid) (messages d))).
  split; [reflexivity|]. split; [symmetry; apply order_by_timestamp_perm|].
  split; [apply order_by_timestamp_sorted|].
  intros m Hm.
  apply (Permutation_in _ (Permutation_sym (order_by_timestamp_perm _))) in Hm.
  apply filter_In in Hm. destruct Hm as (_ & Hm).
  unfold message_of, sql_eq in Hm.
  destruct (message_user_id m) as [k|]; [|discriminate].
  destruct uid as [i|]; [|discriminate].
  apply Z.eqb_eq in Hm. subst k. exists i. split; reflexivity.
Qed.

Lemma insert_by_timestamp_last (m : message_row) (s : list message_row) :
  Forall (fun x => message_timestamp x <= message_timestamp m) s ->
  insert_by_timestamp m s = (s ++ [m])%list.
Proof.
  induction 1 as [|x s Hx _ IH]; [reflexivity|].
  cbn [insert_by_timestamp].
  destruct (Z.ltb (message_timestamp m) (message_timestamp x)) eqn:Hlt.
  - apply Z.ltb_lt in Hlt. lia.
  - rewrite IH. reflexivity.
Qed.

(** Storing a message and reading the history back: when the clock is
    past the timestamps of the messages the user already has, the history
    of the user is the one before followed by the new message; the
    history of every other user is unchanged. *)
Theorem store_message_then_history (E : env) (d d' : db) (i : Z) (message : json)
    (role : string) :
  store_message E d (Some i) message role = Ok d' ->
  (forall m, In m (messages d) -> message_user_id m = Some i ->
             message_timestamp m < current_timestamp E d) ->
  (exists stored,
      bind_text E message = Ok stored
      /\ get_user_history d' (Some i)
         = (get_user_history d (Some i) ++ [(stored, role)])%list)
  /\ (forall j, j <> i -> get_user_history d' (Some j) = get_user_history d (Some j)).
Proof.
  unfold store_message.
  destruct (bind_text E message) as [stored|e]; cbn [bind]; [|discriminate].
  intros [= <-] Hclock. split.
  - exists stored. split; [reflexivity|].
    unfold get_user_history. cbn [messages].
    rewrite filter_app. cbn [filter message_user_id sql_eq]. rewrite Z.eqb_refl.
    rewrite order_by_timestamp_snoc, insert_by_timestamp_last.
    + rewrite map_app. reflexivity.
    + cbn [message_timestamp]. apply Forall_forall. intros m Hm.
      apply (Permutation_in _ (Permutation_sym (order_by_timestamp_perm _))) in Hm.
      apply filter_In in Hm. destruct Hm as (Hin & Hu).
      apply Z.lt_le_incl. apply Hclock; [exact Hin|].
      unfold sql_eq in Hu. destruct (message_user_id m) as [k|]; [|discriminate].
      apply Z.eqb_eq in Hu. congruence.
  - intros j Hj. unfold get_user_history. cbn [messages].
    rewrite filter_app. cbn [filter message_user_id sql_eq].
    destruct (Z.eqb i j) eqn:Hij; [apply Z.eqb_eq in Hij; congruence|].
    rewrite app_nil_r. reflexivity.
Qed.

End HistoryFacts.

(** ** Messages below the threshold *)

Section AnswerFacts.

Import bot.

Variable E : env.

Lemma get_user_id_set_counts (f : Z -> Z) (d : db) (uid : option Z) (t : Z) :
  get_user_id (with_users d (map (set_message_count f uid) (users d))) t
  = get_user_id d t.
Proof.
  apply (ext_ids _ _ _ _ (set_counts_extends f (t + 1) uid d)). lia.
Qed.

Lemma get_user_id_users (d d' : db) (t : Z) :
  users d' = users d -> get_user_id d' t = get_user_id d t.
Proof.
  intros H. unfold get_user_id. rewrite H. reflexivity.
Qed.

Lemma ensure_user_same (d : db) (user : tg_user) (i : Z) :
  get_user_id d (id user) = Some i ->
  ensure_user d (id user) (first_name user) = d.
Proof.
  intros H. apply ensure_user_known. congruence.
Qed.

(** [chat] for a known user whose new count does not exceed 20: the
    message is stored, the model is asked, the answer is stored and sent. *)
Lemma chat_below (d : db) (user : tg_user) (user_message : string) (i n : Z) :
  get_user_id d (id user) = Some i ->
  message_count_of d (Some i) = Some n ->
  sqlite_add_one n <= 20 ->
  exists d2 d3,
    d2 = fst (increment_message_count d (Some i))
    /\ store_message E d2 (Some i) (JStr user_message) "user" = Ok d3
    /\ chat E d user user_message
       = (let (bot_response, calls) :=
            generate_response E (get_user_history d3 (Some i)) in
          match store_message E d3 (Some i) bot_response "bot" with
          | Ok d4 =>
              {| out_db := d4;
                 out_events := (calls ++ [Reply bot_response None])%list;
                 out_raised := None |}
          | Raise e =>
              {| out_db := d3; out_events := calls; out_raised := Some e |}
          end).
Proof.
  intros Hi Hn Hle. unfold chat.
  rewrite (ensure_user_same d user i Hi), Hi.
  destruct (increment_message_count_spec d (Some i) n Hn) as (Hc & _).
  destruct (increment_message_count d (Some i)) as (d2, c) eqn:Hinc.
  cbn [fst snd] in Hc. subst c.
  assert (Hgt : Z.gtb (sqlite_add_one n) 20 = false).
  { rewrite Z.gtb_ltb. apply Z.ltb_ge. lia. }
  rewrite Hgt.
  destruct (store_message E d2 (Some i) (JStr user_message) "user") as [d3|e] eqn:Hs;
    [|discriminate Hs].
  exists d2, d3. repeat split; try reflexivity. exact Hs.
Qed.

(** Every text message of a known user goes through the increment,
    answered or not. *)
Lemma chat_counts (d : db) (user : tg_user) (user_message : string) (i n : Z) :
  get_user_id d (id user) = Some i ->
  message_count_of d (Some i) = Some n ->
  get_user_id (out_db (chat E d user user_message)) (id user) = Some i
  /\ message_count_of (out_db (chat E d user user_message)) (Some i)
     = Some (sqlite_add_one n).
Proof.
  intros Hi Hn. unfold chat.
  rewrite (ensure_user_same d user i Hi), Hi.
  destruct (increment_message_count_spec d (Some i) n Hn) as (_ & Hm).
  assert (Hid : get_user_id (fst (increment_message_count d (Some i))) (id user)
                = Some i).
  { unfold increment_message_count. cbn [fst].
    rewrite get_user_id_set_counts. exact Hi. }
  destruct (increment_message_count d (Some i)) as (d2, c).
  cbn [fst] in Hm, Hid.
  destruct (Z.gtb c 20).
  - destruct (select_wallet d2 (Some i)); cbn [out_db]; split; assumption.
  - destruct (store_message E d2 (Some i) (JStr user_message) "user") as [d3|e] eqn:Hs;
      [|discriminate Hs].
    pose proof (store_message_users E _ _ _ _ _ Hs) as Hu3.
    destruct (generate_response E (get_user_history d3 (Some i)))
      as (bot_response, calls).
    destruct (store_message E d3 (Some i) bot_response "bot") as [d4|e] eqn:Hs4;
      cbn [out_db].
    + pose proof (store_message_users E _ _ _ _ _ Hs4) as Hu4.
      split.
      * rewrite (get_user_id_users d2 d4); [exact Hid | congruence].
      * rewrite (message_count_of_users d2 d4); [exact Hm | congruence].
    + split.
      * rewrite (get_user_id_users d2 d3); [exact Hid | exact Hu3].
      * rewrite (message_count_of_users d2 d3); [exact Hm | exact Hu3].
Qed.

End AnswerFacts.

(** ** What stands behind a verified payment *)

Section CreditFacts.

Import bot.

Variable E : env.
Variable d : db.
Variable user : tg_user.

Local Abbreviation d1 := (ensure_user d (id user) (first_name user)).
Local Abbreviation uid := (get_user_id d1 (id user)).

Lemma truthy_not_null (v : json) : truthy v = true -> v <> JNull.
Proof. intros H ->. discriminate H. Qed.

(** [Payment verified!] is the answer only when the RPC listed, for the
    wallet bound to the user, a transaction whose detail holds a parsed
    instruction with destination = the configured receiving address,
    source = that wallet and an amount that compares equal to 0.001, and
    when the signature of that transaction was not stored yet; the
    payment row appended carries it. *)
Theorem paid_verified_is_backed :
  In (say "Payment verified!") (out_events (paid E d user)) ->
  exists address rest txn_id stored pre txn post instructions i info lamports
         amount_received,
    select_wallet d1 uid = address :: rest
    /\ bind_text E txn_id = Ok stored
    /\ (forall p, In p (payments d) ->
                  sql_text_eq (payment_transaction_id p) stored = false)
    /\ map payment_transaction_id (payments (out_db (paid E d user)))
       = (map payment_transaction_id (payments d) ++ [stored])%list
    /\ signature_list E address = Ok (Some (pre ++ txn :: post)%list)
    /\ fetch_instructions E txn = Ok (txn_id, Some instructions)
    /\ In i instructions
    /\ instruction_info i = Some info
    /\ assoc "destination" info = Some (JStr (CRYPTO_WALLET_ADDRESS E))
    /\ assoc "source" info = Some (JStr address)
    /\ py_int E (match assoc "lamports" info with
                 | Some x => x
                 | None => JInt 0
                 end) = Ok lamports
    /\ truediv lamports float_1e9 = Ok amount_received
    /\ SFeqb amount_received float_0_001 = true.
Proof.
  destruct (ensure_user_frame d (id user) (first_name user))
    as (_ & _ & Hp & _).
  unfold paid.
  destruct (select_wallet d1 uid) as [|address rest] eqn:Hw;
    [intros [H|[]]; discriminate H|].
  destruct (utils.verify_payment E (CRYPTO_WALLET_ADDRESS E) address float_0_001)
    as [txn_id|e] eqn:Hv; [|intros []].
  destruct (truthy txn_id) eqn:Ht; [|intros [H|[]]; discriminate H].
  destruct (insert_payment E d1 uid txn_id float_0_001) as [d2|e] eqn:Hi;
    [|intros [H|[]]; discriminate H].
  intros _. cbn [out_db].
  unfold insert_payment in Hi.
  destruct (bind_text E txn_id) as [stored|e] eqn:Hb; cbn [bind] in Hi; [|discriminate].
  destruct (existsb (fun p => sql_text_eq (payment_transaction_id p) stored)
              (payments d1)) eqn:Hex; [discriminate|].
  injection Hi as <-.
  rewrite verify_payment_listing in Hv.
  destruct (signature_list E address) as [[l|]|e] eqn:Hl; cbn [bind] in Hv;
    [| injection Hv as <-; discriminate Ht | discriminate].
  destruct (scan_transactions_sound _ _ _ _ l txn_id Hv)
    as [->|(pre & txn & post & -> & _ & Hm & Hg)]; [discriminate Ht|].
  destruct (transaction_matches_sound _ _ _ _ txn Hm) as (sig & instrs & Hf & Hs).
  pose proof (fetch_instructions_signature E txn sig _ Hf) as Hsig.
  rewrite Hg in Hsig. injection Hsig as <-.
  destruct (scan_instructions_sound _ _ _ _ instrs Hs) as (i & Hin & Him).
  destruct (instruction_matches_sound _ _ _ _ i Him)
    as (info & lamports & a & H1 & H2 & H3 & H4 & H5 & H6).
  exists address, rest, txn_id, stored, pre, txn, post, instrs, i, info, lamports, a.
  split; [reflexivity|]. split; [exact Hb|]. split.
  { intros p Hin'. rewrite <- Hp in Hin'.
    destruct (sql_text_eq (payment_transaction_id p) stored) eqn:Heq; [|reflexivity].
    assert (Hex' : existsb (fun q => sql_text_eq (payment_transaction_id q) stored)
                     (payments d1) = true).
    { apply existsb_exists. exists p. split; assumption. }
    congruence. }
  split.
  { unfold reset_message_count, with_users. cbn [payments].
    rewrite map_app, Hp. reflexivity. }
  repeat split; assumption.
Qed.

(** After a verified payment the next message of the user is answered by
    the model again, and counts as the first one. *)
Theorem paid_then_chat_is_answered (address : string) (rest : list string)
    (sig user_message : string) :
  select_wallet d1 uid = address :: rest ->
  utils.verify_payment E (CRYPTO_WALLET_ADDRESS E) address float_0_001
  = Ok (JStr sig) ->
  sig <> "" ->
  (forall p, In p (payments d) -> payment_transaction_id p <> Some sig) ->
  let o := chat E (out_db (paid E d user)) user user_message in
  message_count_of (out_db o) uid = Some 1
  /\ (exists prompt, In (ModelCall prompt) (out_events o))
  /\ In (Some user_message, "user")
        (map history_entry (messages (out_db o))).
Proof.
  intros Hw Hv Hs Hfresh o.
  destruct (ensure_user_registered d (id user) (first_name user)) as (i & Hi).
  destruct (get_user_id_counted d1 (id user) i Hi) as (n & Hn).
  destruct (paid_verified E d user address rest sig Hw Hv Hs Hfresh)
    as (_ & Hc & _).
  rewrite Hi in Hc. specialize (Hc n Hn).
  assert (Hid : get_user_id (out_db (paid E d user)) (id user) = Some i).
  { rewrite (paid_with_signature E d user address rest sig Hw Hv Hs).
    destruct (ensure_user_frame d (id user) (first_name user))
      as (_ & _ & Hp & _).
    rewrite <- Hp in Hfresh.
    destruct (insert_payment_fresh E d1 uid sig float_0_001 Hfresh)
      as (d2 & -> & Hu2 & _).
    cbn [out_db]. unfold reset_message_count.
    rewrite get_user_id_set_counts, (get_user_id_users d1 d2 _ Hu2). exact Hi. }
  rewrite Hi.
  destruct (chat_counts E _ user user_message i 0 Hid Hc) as (_ & Hcount).
  split; [exact Hcount|].
  destruct (chat_below E _ user user_message i 0 Hid Hc ltac:(cbn; lia))
    as (d2 & d3 & _ & Hs3 & Hchat).
  subst o. rewrite Hchat.
  assert (Hm3 : In (Some user_message, "user") (map history_entry (messages d3))).
  { unfold store_message in Hs3. cbn [bind_text bind] in Hs3. injection Hs3 as <-.
    cbn [messages]. rewrite map_app. apply in_or_app. right. left. reflexivity. }
  destruct (generate_response E (get_user_history d3 (Some i)))
    as (answer, calls) eqn:Hg.
  assert (Hcalls : exists prompt, In (ModelCall prompt) calls).
  { unfold generate_response in Hg. injection Hg as _ <-.
    eexists. left. reflexivity. }
  destruct (store_message E d3 (Some i) answer "bot") as [d4|e] eqn:Hs4;
    cbn [out_db out_events].
  - split.
    + destruct Hcalls as (prompt & Hin). exists prompt.
      apply in_or_app. left. exact Hin.
    + unfold store_message in Hs4.
      destruct (bind_text E answer); cbn [bind] in Hs4; [|discriminate].
      injection Hs4 as <-. cbn [messages]. rewrite map_app.
      apply in_or_app. left. exact Hm3.
  - split; [exact Hcalls | exact Hm3].
Qed.

End CreditFacts.

(** ** Binding a wallet again *)

Section RebindFacts.

Import bot.

(** Two valid [/wallet] commands in a row: the second address replaces the
    first one in the row the first command left; no row is added and the
    user has the second address only. *)
Theorem wallet_rebinding_updates_in_place (E : env) (d : db) (user : tg_user)
    (first second : string) (rest rest' : list string) :
  String.length first = 44%nat /\ isalnum first = true ->
  String.length second = 44%nat /\ isalnum second = true ->
  let d1 := ensure_user d (id user) (first_name user) in
  let uid := get_user_id d1 (id user) in
  let o1 := wallet E d user (first :: rest) in
  let o2 := wallet E (out_db o1) user (second :: rest') in
  (List.length (select_wallet d1 uid) <= 1)%nat ->
  select_wallet (out_db o1) uid = [first]
  /\ select_wallet (out_db o2) uid = [second]
  /\ map wallet_id (wallets (out_db o2)) = map wallet_id (wallets (out_db o1))
  /\ map wallet_user_id (wallets (out_db o2))
     = map wallet_user_id (wallets (out_db o1)).
Proof.
  intros (Hl1 & Ha1) (Hl2 & Ha2) d1 uid o1 o2 Hone.
  destruct (ensure_user_registered d (id user) (first_name user)) as (i & Hi).
  fold d1 in Hi. fold uid in Hi.
  assert (Ho1 : out_db o1 = upsert_wallet d1 uid first).
  { subst o1. unfold wallet. apply Nat.eqb_eq in Hl1. rewrite Hl1, Ha1. reflexivity. }
  assert (Hid : get_user_id (out_db o1) (id user) = Some i).
  { rewrite Ho1. rewrite (get_user_id_users d1); [exact Hi | reflexivity]. }
  assert (Ho2 : out_db o2 = upsert_wallet (out_db o1) uid second).
  { subst o2. unfold wallet. rewrite (ensure_user_same _ user i Hid).
    apply Nat.eqb_eq in Hl2. rewrite Hl2, Ha2. cbn [negb orb out_db].
    rewrite Hid, <- Hi. reflexivity. }
  assert (Hs1 : select_wallet (out_db o1) uid = [first]).
  { rewrite Ho1, Hi, select_wallet_upsert. rewrite Hi in Hone.
    destruct (select_wallet d1 (Some i)) as [|x [|y l]];
      [reflexivity | reflexivity | cbn in Hone; lia]. }
  split; [exact Hs1|]. split.
  - rewrite Ho2, Hi, select_wallet_upsert. rewrite Hi in Hs1. rewrite Hs1.
    reflexivity.
  - assert (Hex : existsb (fun w => sql_eq (wallet_user_id w) uid)
                    (wallets (out_db o1)) = true).
    { destruct (existsb (fun w => sql_eq (wallet_user_id w) uid)
                  (wallets (out_db o1))) eqn:Hex; [reflexivity|].
      apply existsb_filter_nil in Hex. unfold select_wallet in Hs1.
      rewrite Hex in Hs1. discriminate Hs1. }
    rewrite Ho2. unfold upsert_wallet. cbn [wallets]. rewrite Hex.
    rewrite !map_map. split; apply map_ext; intros w;
      destruct (sql_eq (wallet_user_id w) uid); reflexivity.
Qed.

End RebindFacts.

(** ** Removing the code fences *)

Section FenceFacts.

Import bot.

Lemma prefix_backtick_other (old' rest : string) (c : ascii) :
  Ascii.eqb c "`" = false ->
  String.prefix (String "`" old') (String c rest) = false.
Proof.
  intros Hc. cbn [String.prefix].
  destruct (ascii_dec "`" c) as [Heq|Hne]; [|reflexivity].
  subst c. discriminate Hc.
Qed.

(** Text without backticks is copied as it is. *)
Lemma remove_from_free (old' s t : string) :
  free_of_backticks s = true ->
  remove_from (String "`" old') O (s ++ t)
  = s ++ remove_from (String "`" old') O t.
Proof.
  unfold free_of_backticks. induction s as [|c s IH]; [reflexivity|].
  cbn [list_ascii_of_string forallb]. intros H.
  apply andb_true_iff in H. destruct H as (Hc & Hs).
  apply negb_true_iff in Hc.
  cbn [append remove_from]. rewrite (prefix_backtick_other old' _ c Hc).
  rewrite (IH Hs). reflexivity.
Qed.

Lemma append_empty (s : string) : s ++ "" = s.
Proof. induction s as [|c s IH]; [reflexivity|]. cbn. rewrite IH. reflexivity. Qed.

Lemma remove_all_free (old' s : string) :
  free_of_backticks s = true -> remove_all (String "`" old') s = s.
Proof.
  intros H. unfold remove_all.
  rewrite <- (append_empty s) at 1. rewrite (remove_from_free old' s "" H).
  apply append_empty.
Qed.

Lemma lstrip_length (s : string) : (String.length (lstrip s) <= String.length s)%nat.
Proof.
  induction s as [|c s IH]; cbn [lstrip String.length]; [lia|].
  destruct (isspace_char c); cbn [String.length]; lia.
Qed.

Lemma lstrip_fixed_app (s t : string) :
  s <> "" -> lstrip s = s -> lstrip (s ++ t) = s ++ t.
Proof.
  destruct s as [|c s]; [contradiction|]. intros _. cbn [lstrip append].
  destruct (isspace_char c); [|reflexivity].
  intros H. pose proof (lstrip_length s) as Hl. rewrite H in Hl.
  cbn [String.length] in Hl. lia.
Qed.

Lemma rstrip_line_feed (s : string) : rstrip (s ++ LF) = rstrip s.
Proof.
  induction s as [|c s IH]; [reflexivity|].
  cbn [append rstrip]. rewrite IH. reflexivity.
Qed.

Lemma strip_between_line_feeds (s : string) :
  lstrip s = s -> rstrip s = s -> strip (LF ++ s ++ LF) = s.
Proof.
  intros Hl Hr. unfold strip.
  change (lstrip (LF ++ s ++ LF)) with (lstrip (s ++ LF)).
  destruct (String.eqb s "") eqn:He.
  - apply String.eqb_eq in He. subst s. reflexivity.
  - apply String.eqb_neq in He.
    rewrite (lstrip_fixed_app s LF He Hl), rstrip_line_feed. exact Hr.
Qed.

(** A body without backticks and without white space at its ends comes
    out of [strip_fences] unchanged, whether the model sent it between
    [```json] and [```] lines, between two [```] lines, or bare. *)
Theorem strip_fences_recovers_body (body : string) :
  free_of_backticks body = true ->
  lstrip body = body ->
  rstrip body = body ->
  strip_fences ("```json" ++ LF ++ body ++ LF ++ "```") = body
  /\ strip_fences ("```" ++ LF ++ body ++ LF ++ "```") = body
  /\ strip_fences body = body.
Proof.
  intros Hfree Hl Hr.
  assert (Hlf : free_of_backticks LF = true) by reflexivity.
  assert (Hjson : remove_all "```json" (LF ++ body ++ LF ++ "```")
                  = LF ++ body ++ LF ++ "```").
  { unfold remove_all.
    rewrite (remove_from_free "``json" LF _ Hlf).
    rewrite (remove_from_free "``json" body _ Hfree).
    rewrite (remove_from_free "``json" LF _ Hlf). reflexivity. }
  assert (Hplain : remove_all "```" (LF ++ body ++ LF ++ "```")
                   = LF ++ body ++ LF).
  { unfold remove_all.
    rewrite (remove_from_free "``" LF _ Hlf).
    rewrite (remove_from_free "``" body _ Hfree).
    rewrite (remove_from_free "``" LF _ Hlf). reflexivity. }
  unfold strip_fences. split; [|split].
  - change (remove_all "```json" ("```json" ++ LF ++ body ++ LF ++ "```"))
      with (remove_all "```json" (LF ++ body ++ LF ++ "```")).
    rewrite Hjson, Hplain. apply strip_between_line_feeds; assumption.
  - change (remove_all "```json" ("```" ++ LF ++ body ++ LF ++ "```"))
      with ("```" ++ remove_all "```json" (LF ++ body ++ LF ++ "```")).
    rewrite Hjson.
    change (remove_all "```" ("```" ++ LF ++ body ++ LF ++ "```"))
      with (remove_all "```" (LF ++ body ++ LF ++ "```")).
    rewrite Hplain. apply strip_between_line_feeds; assumption.
  - rewrite (remove_all_free "``json" body Hfree).
    rewrite (remove_all_free "``" body Hfree).
    unfold strip. rewrite Hl. exact Hr.
Qed.

End FenceFacts.

(** ** [fetch_memes] *)

Section MemeFacts.

Variable http_get : string -> list (string * json) -> result response.
Variable TENOR_API_KEY : json.

Local Abbreviation fetch := (utils.fetch_memes http_get TENOR_API_KEY).
Local Abbreviation call terms :=
  (http_get "https://g.tenor.com/v1/search"
     [("api_key", TENOR_API_KEY); ("q", JStr terms); ("limit", JInt 5)]).

Lemma meme_shape (item m : json) :
  utils.meme item = Ok m ->
  exists description url, m = JObj [("description", description); ("gifUrl", url)].
Proof.
  unfold utils.meme.
  destruct (dict_get item "content_description" (JStr "No description"))
    as [description|e]; cbn [bind]; [|discriminate].
  destruct (dict_get item "media" (JArr [JObj []])) as [media|e]; cbn [bind];
    [|discriminate].
  destruct (utils.first_item media) as [first|e]; cbn [bind]; [|discriminate].
  destruct (dict_get first "gif" (JObj [])) as [gif|e]; cbn [bind]; [|discriminate].
  destruct (dict_get gif "url" (JStr "No GIF URL available")) as [url|e];
    cbn [bind]; [|discriminate].
  intros [= <-]. exists description, url. reflexivity.
Qed.

Lemma memes_each (items out : list json) :
  utils.memes items = Ok out ->
  Forall2 (fun item m => utils.meme item = Ok m) items out.
Proof.
  revert out. induction items as [|item items IH]; intros out.
  - intros [= <-]. constructor.
  - cbn [utils.memes].
    destruct (utils.meme item) as [m|e] eqn:Hm; cbn [bind]; [|discriminate].
    destruct (utils.memes items) as [ms|e]; cbn [bind]; [|discriminate].
    intros [= <-]. constructor; [exact Hm | apply IH; reflexivity].
Qed.

(** One entry that cannot be rendered loses the whole list. *)
Lemma memes_raise (pre post outs : list json) (item : json) (e : exn) :
  utils.memes pre = Ok outs ->
  utils.meme item = Raise e ->
  utils.memes (pre ++ item :: post) = Raise e.
Proof.
  revert outs. induction pre as [|x pre IH]; intros outs.
  - intros _ He. cbn [app utils.memes]. rewrite He. reflexivity.
  - cbn [app utils.memes].
    destruct (utils.meme x) as [m|e']; cbn [bind]; [|discriminate].
    destruct (utils.memes pre) as [ms|e'] eqn:Hpre; cbn [bind]; [|discriminate].
    intros _ He. rewrite (IH ms eq_refl He). reflexivity.
Qed.

(** Whatever Tenor answers: on a status other than 200 [fetch_memes]
    returns the empty list without reading the body; when it returns a
    list on status 200, the list has one dict per entry of [results], in
    the same order, each with the two keys [description] and [gifUrl]
    and nothing else. *)
Theorem fetch_memes_one_per_result (terms : string) (r : response) :
  call terms = Ok r ->
  (status_code r <> 200 -> fetch terms = Ok [])
  /\ (forall out,
        status_code r = 200 ->
        fetch terms = Ok out ->
        exists body results items,
          json_body r = Ok body
          /\ dict_get body "results" (JArr []) = Ok results
          /\ iter results = Ok items
          /\ Forall2 (fun item m =>
                        utils.meme item = Ok m
                        /\ exists description url,
                             m = JObj [("description", description);
                                       ("gifUrl", url)])
               items out).
Proof.
  intros Hr. unfold utils.fetch_memes. rewrite Hr. cbn [bind]. split.
  - intros Hc. apply Z.eqb_neq in Hc. rewrite Hc. reflexivity.
  - intros out Hc. rewrite Hc. cbn [Z.eqb Pos.eqb].
    destruct (json_body r) as [body|e] eqn:Hb; cbn [bind]; [|discriminate].
    destruct (dict_get body "results" (JArr [])) as [results|e] eqn:Hres; cbn [bind];
      [|discriminate].
    destruct (iter results) as [items|e] eqn:Hit; cbn [bind]; [|discriminate].
    intros Hm. exists body, results, items.
    split; [reflexivity|]. split; [exact Hres|]. split; [exact Hit|].
    apply memes_each in Hm.
    eapply Forall2_impl; [|exact Hm].
    intros item m H. split; [exact H | exact (meme_shape item m H)].
Qed.

(** The defaults of one entry, and the case they do not cover: an entry
    without [content_description] or without [media] gets the
    placeholder texts; an entry whose [media] is an empty list raises
    [IndexError], and with it the whole call, whatever the other entries
    are worth. *)
Theorem fetch_memes_defaults_and_gap (fields : list (string * json)) :
  (assoc "media" fields = None ->
   utils.meme (JObj fields)
   = Ok (JObj [("description",
                match assoc "content_description" fields with
                | Some v => v
                | None => JStr "No description"
                end);
               ("gifUrl", JStr "No GIF URL available")]))
  /\ (assoc "media" fields = Some (JArr []) ->
      forall terms r body pre post outs,
        call terms = Ok r ->
        status_code r = 200 ->
        json_body r = Ok body ->
        dict_get body "results" (JArr [])
        = Ok (JArr (pre ++ JObj fields :: post)) ->
        utils.memes pre = Ok outs ->
        fetch terms = Raise (OtherError "IndexError" "list index out of range")).
Proof.
  split.
  - intros Hm. unfold utils.meme. cbn [dict_get bind]. rewrite Hm. reflexivity.
  - intros Hm terms r body pre post outs Hr Hc Hb Hres Hpre.
    unfold utils.fetch_memes. rewrite Hr. cbn [bind]. rewrite Hc.
    cbn [Z.eqb Pos.eqb]. rewrite Hb. cbn [bind]. rewrite Hres. cbn [bind iter].
    apply (memes_raise pre post outs); [exact Hpre|].
    unfold utils.meme. cbn [dict_get bind]. rewrite Hm. reflexivity.
Qed.

End MemeFacts.

(** ** Registration *)

Section RegistrationFacts.

Import bot.

Lemma get_user_id_none (d : db) (telegram_id : Z) :
  get_user_id d telegram_id = None <->
  existsb (fun u => Z.eqb (user_telegram_id u) telegram_id) (users d) = false.
Proof.
  rewrite existsb_filter_nil. unfold get_user_id.
  destruct (filter _ (users d)); split; intros H; try reflexivity; discriminate H.
Qed.

(** [ensure_user] registers a telegram id once: a first contact appends
    one row, with the next rowid, the name given and a count of 0; any
    later contact changes nothing, not even the name when the user comes
    back under another one. *)
Theorem ensure_user_registers_once (d : db) (telegram_id : Z) (name later : string) :
  let d1 := ensure_user d telegram_id name in
  ensure_user d1 telegram_id later = d1
  /\ (get_user_id d telegram_id <> None -> d1 = d)
  /\ (get_user_id d telegram_id = None ->
      users d1
      = (users d ++ [ {| user_id := next_rowid (map user_id (users d));
                         user_telegram_id := telegram_id;
                         user_name := name;
                         user_message_count := 0 |} ])%list
      /\ get_user_id d1 telegram_id = Some (next_rowid (map user_id (users d)))
      /\ select_message_count d1 (get_user_id d1 telegram_id) = [0]).
Proof.
  intros d1. split; [|split].
  - apply ensure_user_known.
    destruct (ensure_user_registered d telegram_id name) as (i & Hi).
    subst d1. rewrite Hi. discriminate.
  - intros Hk. apply ensure_user_known. exact Hk.
  - intros Hn. apply get_user_id_none in Hn.
    pose proof (ensure_user_new_id d telegram_id name Hn) as Hid.
    subst d1. rewrite Hid. unfold ensure_user. rewrite Hn.
    split; [reflexivity|]. split; [reflexivity|].
    unfold select_message_count, with_users. cbn [users].
    rewrite filter_app. cbn [filter has_id sql_eq user_id]. rewrite Z.eqb_refl.
    assert (Hnone : filter (has_id (Some (next_rowid (map user_id (users d)))))
                      (users d) = []).
    { apply existsb_filter_nil.
      destruct (existsb (has_id (Some (next_rowid (map user_id (users d)))))
                  (users d)) eqn:Hex; [|reflexivity].
      apply existsb_exists in Hex. destruct Hex as (u & Hu & Heq).
      unfold has_id, sql_eq in Heq. apply Z.eqb_eq in Heq.
      pose proof (next_rowid_fresh (map user_id (users d)) (user_id u)
                    (in_map user_id _ _ Hu)). lia. }
    rewrite Hnone. reflexivity.
Qed.

End RegistrationFacts.

(** ** Instances *)

Lemma ledger_ok_empty : ledger_ok demo.empty_db.
Proof. constructor; constructor. Qed.

(** From the empty ledger: Alice starts, binds her wallet, pays, chats. *)
Lemma handlers_keep_schema_witness :
  let E := demo.world
             (demo.endpoint (demo.signatures ["S1"])
                [("S1", demo.detail
                          [demo.transfer demo.RECEIVER demo.SENDER 1000000])])
             demo.body_with_plan in
  ledger_ok (bot.run E demo.empty_db
               [(demo.alice, bot.Start);
                (demo.alice, bot.Wallet [demo.SENDER]);
                (demo.alice, bot.Paid);
                (demo.alice, bot.Text "hello")]).
Proof.
  cbv zeta.
  exact (proj2 (handlers_keep_schema _ demo.empty_db _ ledger_ok_empty)).
Defined.

(** Alice's verified payment of the examples. *)
Lemma paid_verified_is_backed_witness :
  let E := demo.world
             (demo.endpoint (demo.signatures ["S1"])
                [("S1", demo.detail
                          [demo.transfer demo.RECEIVER demo.SENDER 1000000])])
             "" in
  exists address rest txn_id instructions txn,
    bot.select_wallet (demo.alice_db 21 true []) (Some 1) = address :: rest
    /\ fetch_instructions E txn = Ok (txn_id, Some instructions).
Proof.
  cbv zeta.
  destruct (paid_verified_is_backed
              (demo.world
                 (demo.endpoint (demo.signatures ["S1"])
                    [("S1", demo.detail
                              [demo.transfer demo.RECEIVER demo.SENDER 1000000])])
                 "")
              (demo.alice_db 21 true []) demo.alice)
    as (address & rest & txn_id & _ & _ & txn & _ & instrs & _ & _ & _ & _
        & Hw & _ & _ & _ & _ & Hf & _).
  - vm_compute. left. reflexivity.
  - exists address, rest, txn_id, instrs, txn. split; assumption.
Defined.

(** Alice pays at 21 messages and writes again. *)
Lemma paid_then_chat_is_answered_witness :
  let E := demo.world
             (demo.endpoint (demo.signatures ["S1"])
                [("S1", demo.detail
                          [demo.transfer demo.RECEIVER demo.SENDER 1000000])])
             demo.body_with_plan in
  let d := demo.alice_db 21 true [] in
  message_count_of
    (bot.out_db (bot.chat E (bot.out_db (bot.paid E d demo.alice)) demo.alice "hello"))
    (Some 1)
  = Some 1.
Proof.
  cbv zeta.
  refine (proj1 (paid_then_chat_is_answered
                   (demo.world
                      (demo.endpoint (demo.signatures ["S1"])
                         [("S1", demo.detail
                                   [demo.transfer demo.RECEIVER demo.SENDER 1000000])])
                      demo.body_with_plan)
                   (demo.alice_db 21 true []) demo.alice demo.SENDER [] "S1" "hello"
                   eq_refl _ _ _)).
  - vm_compute. reflexivity.
  - discriminate.
  - intros p [].
Defined.

(** Alice binds [SENDER], then [OTHER]. *)
Lemma wallet_rebinding_updates_in_place_witness :
  let E := demo.world (fun _ => Ok (demo.failure 503)) "" in
  let o1 := bot.wallet E demo.empty_db demo.alice [demo.SENDER] in
  let o2 := bot.wallet E (bot.out_db o1) demo.alice [demo.OTHER] in
  bot.select_wallet (bot.out_db o1) (Some 1) = [demo.SENDER]
  /\ bot.select_wallet (bot.out_db o2) (Some 1) = [demo.OTHER].
Proof.
  cbv zeta.
  destruct (wallet_rebinding_updates_in_place
              (demo.world (fun _ => Ok (demo.failure 503)) "")
              demo.empty_db demo.alice demo.SENDER demo.OTHER [] [])
    as (H1 & H2 & _).
  - split; reflexivity.
  - split; reflexivity.
  - cbn. lia.
  - split; [exact H1 | exact H2].
Defined.

(** The fenced reply of the examples. *)
Lemma strip_fences_recovers_body_witness :
  bot.strip_fences ("```json" ++ LF ++ demo.body_with_plan ++ LF ++ "```")
  = demo.body_with_plan.
Proof.
  exact (proj1 (strip_fences_recovers_body demo.body_with_plan
                  eq_refl eq_refl eq_refl)).
Defined.

(** A second message of Alice, stored one second after the first. *)
Lemma store_message_then_history_witness :
  let E := demo.world (fun _ => Ok (demo.failure 503)) "" in
  exists d2,
    bot.store_message E demo.alice_wrote (Some 1) (JStr "two") "bot" = Ok d2
    /\ bot.get_user_history d2 (Some 1)
       = [(Some "one", "user"); (Some "two", "bot")].
Proof.
  cbv zeta. eexists. split; [reflexivity|].
  destruct (proj1 (store_message_then_history
                     (demo.world (fun _ => Ok (demo.failure 503)) "")
                     demo.alice_wrote _ 1 (JStr "two") "bot" eq_refl
                     ltac:(intros m Hin _; cbn in Hin; destruct Hin as [<-|[]];
                           cbn; lia)))
    as (stored & Hb & Hh).
  injection Hb as <-. exact Hh.
Defined.

(** Tenor answers 200 with two entries, the second without media. *)
Lemma fetch_memes_one_per_result_witness :
  let r := {| status_code := 200; text := "";
              json_body :=
                Ok (JObj [("results",
                           JArr [JObj [("content_description", JStr "cat");
                                       ("media",
                                        JArr [JObj [("gif",
                                                     JObj [("url", JStr "u1")])]])];
                                 JObj [("id", JStr "2")]])]) |} in
  utils.fetch_memes (fun _ _ => Ok r) JNull "cat"
  = Ok [JObj [("description", JStr "cat"); ("gifUrl", JStr "u1")];
        JObj [("description", JStr "No description");
              ("gifUrl", JStr "No GIF URL available")]]
  /\ utils.fetch_memes (fun _ _ => Ok (demo.failure 404)) JNull "cat" = Ok [].
Proof.
  cbv zeta. split; [reflexivity|].
  apply (proj1 (fetch_memes_one_per_result
                  (fun _ _ => Ok (demo.failure 404)) JNull "cat" (demo.failure 404)
                  eq_refl)).
  cbn. lia.
Defined.

(** ** Free-text messages and the threshold *)

Section TextFacts.

Import bot.

Variable E : env.

Lemma sqlite_add_one_integer (n : Z) :
  sqlite_integer n -> sqlite_add_one n = n + 1.
Proof.
  unfold sqlite_integer, sqlite_add_one. intros H.
  destruct (Z.leb_spec (-9223372036854775808) n);
    destruct (Z.ltb_spec n 9223372036854775808); cbn [andb]; lia.
Qed.

Lemma sqlite_add_one_le (n : Z) : n <= sqlite_add_one n <= n + 1.
Proof.
  unfold sqlite_add_one.
  destruct (Z.leb (-9223372036854775808) n && Z.ltb n 9223372036854775808); lia.
Qed.

(** In a column without duplicates a value selects its row. *)
Lemma filter_unique (f : user_row -> Z) (l : list user_row) (u : user_row) :
  NoDup (map f l) -> In u l -> filter (fun x => Z.eqb (f x) (f u)) l = [u].
Proof.
  induction l as [|x l IH]; [intros _ []|].
  cbn [map filter]. intros Hnd Hin. inversion Hnd as [|? ? Hx Hl]; subst.
  destruct Hin as [->|Hin].
  - rewrite Z.eqb_refl. f_equal. apply existsb_filter_nil.
    destruct (existsb (fun x => Z.eqb (f x) (f u)) l) eqn:Hex; [|reflexivity].
    apply existsb_exists in Hex. destruct Hex as (y & Hy & Heq).
    apply Z.eqb_eq in Heq. exfalso. apply Hx. rewrite <- Heq.
    apply in_map. exact Hy.
  - destruct (Z.eqb (f x) (f u)) eqn:Heq; [|exact (IH Hl Hin)].
    apply Z.eqb_eq in Heq. exfalso. apply Hx. rewrite Heq.
    apply in_map. exact Hin.
Qed.

(** The row of a telegram id is the row the code finds. *)
Lemma known_user (d : db) (u : user_row) :
  ledger_ok d ->
  In u (users d) ->
  get_user_id d (user_telegram_id u) = Some (user_id u)
  /\ message_count_of d (Some (user_id u)) = Some (user_message_count u).
Proof.
  intros Hok Hin. split.
  - unfold get_user_id.
    rewrite (filter_unique user_telegram_id _ u (ok_telegram_ids d Hok) Hin).
    reflexivity.
  - unfold message_count_of, select_message_count.
    assert (Heq : filter (has_id (Some (user_id u))) (users d)
                  = filter (fun x => Z.eqb (user_id x) (user_id u)) (users d))
      by reflexivity.
    rewrite Heq, (filter_unique user_id _ u (ok_user_ids d Hok) Hin).
    reflexivity.
Qed.

(** An update of the counts of a user id, row by row. *)
Lemma set_counts_with_count (f : Z -> Z) (d : db) (u : user_row) :
  ledger_ok d ->
  In u (users d) ->
  map (set_message_count f (Some (user_id u))) (users d)
  = with_count (user_id u) (f (user_message_count u)) (users d).
Proof.
  intros Hok Hin. unfold with_count. apply map_ext_in. intros r Hr.
  unfold set_message_count, has_id, sql_eq.
  destruct (Z.eqb (user_id r) (user_id u)) eqn:Heq; [|reflexivity].
  assert (Hru : r = u).
  { pose proof (filter_unique user_id _ u (ok_user_ids d Hok) Hin) as Hf.
    assert (Hrf : In r (filter (fun x => Z.eqb (user_id x) (user_id u)) (users d)))
      by (apply filter_In; split; assumption).
    rewrite Hf in Hrf. destruct Hrf as [<-|[]]. reflexivity. }
  subst r. reflexivity.
Qed.

(** [chat] rewrites the users relation through the increment only, and
    leaves wallets and payments alone. *)
Lemma chat_relations (d : db) (user : tg_user) (user_message : string) (i : Z) :
  get_user_id d (id user) = Some i ->
  users (out_db (chat E d user user_message))
  = map (set_message_count sqlite_add_one (Some i)) (users d)
  /\ wallets (out_db (chat E d user user_message)) = wallets d
  /\ payments (out_db (chat E d user user_message)) = payments d.
Proof.
  intros Hi. unfold chat. rewrite (ensure_user_same d user i Hi), Hi.
  unfold increment_message_count.
  set (d2 := with_users d (map (set_message_count sqlite_add_one (Some i)) (users d))).
  destruct (Z.gtb _ 20).
  - destruct (select_wallet d2 (Some i)); cbn [out_db]; repeat split; reflexivity.
  - destruct (store_message E d2 (Some i) (JStr user_message) "user") as [d3|e] eqn:H3;
      [|discriminate H3].
    assert (H3' : users d3 = users d2 /\ wallets d3 = wallets d2
                  /\ payments d3 = payments d2).
    { unfold store_message in H3. cbn [bind_text bind] in H3. injection H3 as <-.
      repeat split; reflexivity. }
    destruct (generate_response E (get_user_history d3 (Some i)))
      as (bot_response, calls).
    destruct (store_message E d3 (Some i) bot_response "bot") as [d4|e] eqn:H4;
      cbn [out_db]; [|exact H3'].
    unfold store_message in H4.
    destruct (bind_text E bot_response); cbn [bind] in H4; [|discriminate].
    injection H4 as <-. exact H3'.
Qed.

(** [chat] for a known user whose new count exceeds 20: the ledger of the
    increment and one prompt, chosen by the wallet lookup. *)
Lemma chat_above (d : db) (user : tg_user) (user_message : string) (i n : Z) :
  get_user_id d (id user) = Some i ->
  message_count_of d (Some i) = Some n ->
  sqlite_add_one n > 20 ->
  out_db (chat E d user user_message) = fst (increment_message_count d (Some i))
  /\ out_events (chat E d user user_message)
     = [say (match select_wallet d (Some i) with
             | [] => "Provide your wallet address first. Use /wallet <wallet_address>."
             | _ :: _ => "Limit reached. Send 0.001 SOL to " ++ CRYPTO_WALLET_ADDRESS E
                         ++ " and verify using /paid."
             end)].
Proof.
  intros Hi Hn Hgt. unfold chat.
  rewrite (ensure_user_same d user i Hi), Hi.
  destruct (increment_message_count_spec d (Some i) n Hn) as (Hc & _).
  assert (Hw : select_wallet (fst (increment_message_count d (Some i))) (Some i)
               = select_wallet d (Some i)) by reflexivity.
  destruct (increment_message_count d (Some i)) as (d2, c).
  cbn [fst snd] in Hc, Hw. subst c.
  assert (Hb : Z.gtb (sqlite_add_one n) 20 = true) by (apply Z.gtb_lt; lia).
  rewrite Hb, Hw. destruct (select_wallet d (Some i)); split; reflexivity.
Qed.

(** The wallet lookup, from the rows. *)
Lemma select_wallet_rows (d : db) (i : Z) :
  ((forall w, In w (wallets d) -> wallet_user_id w <> Some i) ->
   select_wallet d (Some i) = [])
  /\ (forall w, In w (wallets d) -> wallet_user_id w = Some i ->
                select_wallet d (Some i) <> []).
Proof.
  unfold select_wallet. split.
  - intros Hnone.
    assert (Hf : filter (fun w => sql_eq (wallet_user_id w) (Some i)) (wallets d) = []).
    { apply existsb_filter_nil.
      destruct (existsb (fun w => sql_eq (wallet_user_id w) (Some i)) (wallets d))
        eqn:Hex; [|reflexivity].
      apply existsb_exists in Hex. destruct Hex as (w & Hw & Heq).
      exfalso. apply (Hnone w Hw). unfold sql_eq in Heq.
      destruct (wallet_user_id w) as [k|]; [|discriminate].
      apply Z.eqb_eq in Heq. congruence. }
    rewrite Hf. reflexivity.
  - intros w Hw Hu Hnil.
    assert (Hin : In w (filter (fun w => sql_eq (wallet_user_id w) (Some i))
                          (wallets d))).
    { apply filter_In. split; [exact Hw|]. rewrite Hu. cbn. apply Z.eqb_refl. }
    destruct (filter (fun w => sql_eq (wallet_user_id w) (Some i)) (wallets d));
      [destruct Hin | discriminate Hnil].
Qed.

(** A text message of a registered user, from the row of the user. *)
Lemma chat_known (d : db) (user : tg_user) (user_message : string) (u : user_row) :
  ledger_ok d ->
  In u (users d) ->
  user_telegram_id u = id user ->
  let o := chat E d user user_message in
  let c := sqlite_add_one (user_message_count u) in
  users (out_db o) = with_count (user_id u) c (users d)
  /\ (c > 20 ->
      messages (out_db o) = messages d
      /\ wallets (out_db o) = wallets d
      /\ payments (out_db o) = payments d
      /\ (forall prompt, ~ In (ModelCall prompt) (out_events o))
      /\ ((forall w, In w (wallets d) -> wallet_user_id w <> Some (user_id u)) ->
          out_events o =
          [say "Provide your wallet address first. Use /wallet <wallet_address>."])
      /\ (forall w, In w (wallets d) -> wallet_user_id w = Some (user_id u) ->
          out_events o =
          [say ("Limit reached. Send 0.001 SOL to " ++ CRYPTO_WALLET_ADDRESS E
                ++ " and verify using /paid.")]))
  /\ (c <= 20 -> exists prompt, In (ModelCall prompt) (out_events o)).
Proof.
  intros Hok Hin Ht o c.
  destruct (known_user d u Hok Hin) as (Hi & Hn). rewrite Ht in Hi.
  destruct (chat_relations d user user_message (user_id u) Hi) as (Hu & Hw & Hp).
  fold o in Hu, Hw, Hp.
  split; [|split].
  - rewrite Hu, (set_counts_with_count sqlite_add_one d u Hok Hin). reflexivity.
  - intros Hgt.
    destruct (chat_above d user user_message (user_id u) _ Hi Hn Hgt) as (Hdb & Hev).
    fold o in Hdb, Hev.
    destruct (select_wallet_rows d (user_id u)) as (Hnone & Hsome).
    split; [rewrite Hdb; reflexivity|]. split; [exact Hw|]. split; [exact Hp|].
    split; [|split].
    + intros prompt Hc. rewrite Hev in Hc. destruct Hc as [Hc|[]]. discriminate Hc.
    + intros Hno. rewrite Hev, (Hnone Hno). reflexivity.
    + intros w Hw' Hwu. rewrite Hev. pose proof (Hsome w Hw' Hwu) as Hne.
      destruct (select_wallet d (Some (user_id u)));
        [exfalso; apply Hne; reflexivity | reflexivity].
  - intros Hle.
    destruct (chat_below E d user user_message (user_id u) _ Hi Hn Hle)
      as (d2 & d3 & _ & _ & Hchat).
    subst o. rewrite Hchat.
    destruct (generate_response E (get_user_history d3 (Some (user_id u))))
      as (answer, calls) eqn:Hg.
    assert (Hcalls : exists prompt, In (ModelCall prompt) calls).
    { unfold generate_response in Hg. injection Hg as _ <-.
      eexists. left. reflexivity. }
    destruct Hcalls as (prompt & Hc). exists prompt.
    destruct (store_message E d3 (Some (user_id u)) answer "bot"); cbn [out_events];
      [apply in_or_app; left|]; exact Hc.
Qed.

(** The handler starts with the registration: handling a message in [d]
    is handling it in [d] with the user registered. *)
Lemma chat_registered (d : db) (user : tg_user) (user_message : string) :
  chat E d user user_message
  = chat E (ensure_user d (id user) (first_name user)) user user_message.
Proof.
  unfold chat.
  assert (H : ensure_user (ensure_user d (id user) (first_name user))
                (id user) (first_name user)
              = ensure_user d (id user) (first_name user)).
  { apply ensure_user_known.
    destruct (ensure_user_registered d (id user) (first_name user)) as (i & Hi).
    rewrite Hi. discriminate. }
  rewrite H. reflexivity.
Qed.

Lemma with_count_fresh (i c : Z) (us : list user_row) :
  (forall r, In r us -> user_id r <> i) -> with_count i c us = us.
Proof.
  intros H. unfold with_count. rewrite <- (map_id us) at 2. apply map_ext_in.
  intros r Hr. destruct (Z.eqb_spec (user_id r) i) as [Heq|Hne];
    [destruct (H r Hr Heq) | reflexivity].
Qed.

(** The first text message of a sender without a row. *)
Lemma chat_new (d : db) (user : tg_user) (user_message : string) :
  ledger_ok d ->
  (forall r, In r (users d) -> user_telegram_id r <> id user) ->
  users (out_db (chat E d user user_message))
  = (users d ++ [ {| user_id := next_rowid (map user_id (users d));
                     user_telegram_id := id user;
                     user_name := first_name user;
                     user_message_count := 1 |} ])%list
  /\ exists prompt, In (ModelCall prompt) (out_events (chat E d user user_message)).
Proof.
  intros Hok Hnew.
  set (new := {| user_id := next_rowid (map user_id (users d));
                 user_telegram_id := id user;
                 user_name := first_name user;
                 user_message_count := 0 |}).
  assert (Hex : existsb (fun r => Z.eqb (user_telegram_id r) (id user)) (users d)
                = false).
  { destruct (existsb (fun r => Z.eqb (user_telegram_id r) (id user)) (users d))
      eqn:H; [|reflexivity].
    apply existsb_exists in H. destruct H as (r & Hr & Heq).
    apply Z.eqb_eq in Heq. destruct (Hnew r Hr Heq). }
  assert (Hd1 : ensure_user d (id user) (first_name user)
                = with_users d (users d ++ [new])).
  { unfold ensure_user. rewrite Hex. reflexivity. }
  pose proof (ensure_user_ok d (id user) (first_name user) Hok) as Hok1.
  rewrite (chat_registered d user user_message), Hd1. rewrite Hd1 in Hok1.
  assert (Hin : In new (users (with_users d (users d ++ [new]))))
    by (cbn [users with_users]; apply in_or_app; right; left; reflexivity).
  pose proof (chat_known (with_users d (users d ++ [new])) user user_message new
                Hok1 Hin eq_refl) as H.
  cbv zeta in H. destruct H as (Hu & _ & Hcall).
  split.
  - rewrite Hu. cbn [users with_users]. unfold with_count. rewrite map_app.
    fold (with_count (user_id new) (sqlite_add_one (user_message_count new))
            (users d)).
    rewrite with_count_fresh.
    + cbn [map]. rewrite Z.eqb_refl. reflexivity.
    + intros r Hr Heq.
      pose proof (next_rowid_fresh (map user_id (users d)) (user_id r)
                    (in_map user_id _ _ Hr)) as Hlt.
      cbn [user_id new] in Heq. subst new. cbn [user_id] in Heq. lia.
  - apply Hcall. cbn. lia.
Qed.

(** C6: a text message is counted first: the users relation after the
    handler is the one before with the count of the sender replaced by
    [message_count + 1], which is one more for every count held as an
    INTEGER; a sender without a row is registered and ends with count 1.
    When the new count exceeds 20 the ledger is otherwise unchanged (no
    message is stored), the model is not called, and the only reply is the
    prompt to bind a wallet when no wallet row belongs to the sender, the
    payment instructions when one does.  At a new count of at most 20 the
    model is called. *)
Theorem chat_counts_then_gates (d : db) (user : tg_user) (user_message : string) :
  ledger_ok d ->
  let o := chat E d user user_message in
  (forall u,
     In u (users d) ->
     user_telegram_id u = id user ->
     let c := sqlite_add_one (user_message_count u) in
     (sqlite_integer (user_message_count u) -> c = user_message_count u + 1)
     /\ users (out_db o) = with_count (user_id u) c (users d)
     /\ (c > 20 ->
         messages (out_db o) = messages d
         /\ wallets (out_db o) = wallets d
         /\ payments (out_db o) = payments d
         /\ (forall prompt, ~ In (ModelCall prompt) (out_events o))
         /\ ((forall w, In w (wallets d) -> wallet_user_id w <> Some (user_id u)) ->
             out_events o =
             [say "Provide your wallet address first. Use /wallet <wallet_address>."])
         /\ (forall w, In w (wallets d) -> wallet_user_id w = Some (user_id u) ->
             out_events o =
             [say ("Limit reached. Send 0.001 SOL to " ++ CRYPTO_WALLET_ADDRESS E
                   ++ " and verify using /paid.")]))
     /\ (c <= 20 -> exists prompt, In (ModelCall prompt) (out_events o)))
  /\ ((forall r, In r (users d) -> user_telegram_id r <> id user) ->
      users (out_db o)
      = (users d ++ [ {| user_id := next_rowid (map user_id (users d));
                         user_telegram_id := id user;
                         user_name := first_name user;
                         user_message_count := 1 |} ])%list
      /\ exists prompt, In (ModelCall prompt) (out_events o)).
Proof.
  intros Hok o. split.
  - intros u Hin Ht c. split; [apply sqlite_add_one_integer|].
    exact (chat_known d user user_message u Hok Hin Ht).
  - intros Hnew. exact (chat_new d user user_message Hok Hnew).
Qed.

(** *** Runs of text messages *)

Lemma iter_add_one (k : nat) (n : Z) :
  -9223372036854775808 <= n <= 9223372036854775808 ->
  Nat.iter k sqlite_add_one n = Z.min (n + Z.of_nat k) 9223372036854775808.
Proof.
  intros H. induction k as [|k IH].
  - cbn. lia.
  - change (Nat.iter (S k) sqlite_add_one n)
      with (sqlite_add_one (Nat.iter k sqlite_add_one n)).
    rewrite IH. unfold sqlite_add_one.
    destruct (Z.leb_spec (-9223372036854775808)
                (Z.min (n + Z.of_nat k) 9223372036854775808));
      destruct (Z.ltb_spec (Z.min (n + Z.of_nat k) 9223372036854775808)
                  9223372036854775808);
      cbn [andb]; lia.
Qed.

Lemma set_message_count_twice (f g : Z -> Z) (uid : option Z) (r : user_row) :
  set_message_count f uid (set_message_count g uid r)
  = set_message_count (fun n => f (g n)) uid r.
Proof.
  unfold set_message_count.
  destruct (has_id uid r) eqn:Hr; [|rewrite Hr; reflexivity].
  unfold has_id in *. cbn [user_id]. rewrite Hr. reflexivity.
Qed.

Lemma set_message_count_same (uid : option Z) (r : user_row) :
  set_message_count (fun n => n) uid r = r.
Proof.
  unfold set_message_count. destruct (has_id uid r); [|reflexivity].
  destruct r; reflexivity.
Qed.

(** A run of text messages of one registered user: the count of the user
    goes through [sqlite_add_one] once per message, and nothing else in
    the users and wallets relations moves. *)
Lemma run_texts (d : db) (user : tg_user) (texts : list string) (i n : Z) :
  get_user_id d (id user) = Some i ->
  message_count_of d (Some i) = Some n ->
  let d' := run E d (map (fun m => (user, Text m)) texts) in
  let k := List.length texts in
  get_user_id d' (id user) = Some i
  /\ message_count_of d' (Some i) = Some (Nat.iter k sqlite_add_one n)
  /\ users d' = map (set_message_count (Nat.iter k sqlite_add_one) (Some i)) (users d)
  /\ wallets d' = wallets d.
Proof.
  cbv zeta. revert d n. induction texts as [|m texts IH]; intros d n Hi Hn.
  - cbn [map run List.length]. repeat split; try assumption.
    rewrite <- (map_id (users d)) at 1. apply map_ext. intros r.
    symmetry. apply set_message_count_same.
  - cbn [map run handle List.length].
    destruct (chat_counts E d user m i n Hi Hn) as (Hi' & Hn').
    destruct (chat_relations d user m i Hi) as (Hu & Hw & _).
    destruct (IH _ _ Hi' Hn') as (H1 & H2 & H3 & H4).
    split; [exact H1|]. split; [|split].
    + rewrite H2. rewrite <- Nat.iter_succ_r. reflexivity.
    + rewrite H3, Hu, map_map. apply map_ext. intros r.
      rewrite set_message_count_twice. unfold set_message_count.
      destruct (has_id (Some i) r); [|reflexivity].
      rewrite <- Nat.iter_succ_r. reflexivity.
    + rewrite H4. exact Hw.
Qed.

(** The usage counter is not capped at the threshold: after [k] text
    messages of a registered user, handled one after the other, the stored
    count is [k] more than before, answered or turned away alike, until it
    reaches 2^63, where SQLite stores the REAL 9223372036854775808.0 and
    the count stays. *)
Theorem texts_are_all_counted (d : db) (user : tg_user) (texts : list string)
    (u : user_row) :
  ledger_ok d ->
  In u (users d) ->
  user_telegram_id u = id user ->
  -9223372036854775808 <= user_message_count u <= 9223372036854775808 ->
  users (run E d (map (fun m => (user, Text m)) texts))
  = with_count (user_id u)
      (Z.min (user_message_count u + Z.of_nat (List.length texts))
             9223372036854775808)
      (users d).
Proof.
  intros Hok Hin Ht Hrange.
  destruct (known_user d u Hok Hin) as (Hi & Hn). rewrite Ht in Hi.
  pose proof (run_texts d user texts _ _ Hi Hn) as H. cbv zeta in H.
  destruct H as (_ & _ & Hu & _).
  rewrite Hu, (set_counts_with_count _ d u Hok Hin), (iter_add_one _ _ Hrange).
  reflexivity.
Qed.

(** The free quota is exactly 20 messages per reset: for a registered
    user with stored count [n], after [k] further text messages the next
    one is sent to the model if and only if [n + k + 1 <= 20]; otherwise
    the only event is the prompt to bind a wallet when no wallet row
    belongs to the user, the payment instructions when one does. *)
Theorem model_is_called_up_to_twenty (d : db) (user : tg_user)
    (texts : list string) (next : string) (u : user_row) :
  ledger_ok d ->
  In u (users d) ->
  user_telegram_id u = id user ->
  -9223372036854775808 <= user_message_count u <= 9223372036854775808 ->
  let o := chat E (run E d (map (fun m => (user, Text m)) texts)) user next in
  let c := user_message_count u + Z.of_nat (List.length texts) + 1 in
  ((exists prompt, In (ModelCall prompt) (out_events o)) <-> c <= 20)
  /\ (c > 20 ->
      ((forall w, In w (wallets d) -> wallet_user_id w <> Some (user_id u)) ->
       out_events o =
       [say "Provide your wallet address first. Use /wallet <wallet_address>."])
      /\ (forall w, In w (wallets d) -> wallet_user_id w = Some (user_id u) ->
          out_events o =
          [say ("Limit reached. Send 0.001 SOL to " ++ CRYPTO_WALLET_ADDRESS E
                ++ " and verify using /paid.")])).
Proof.
  intros Hok Hin Ht Hrange o c.
  destruct (known_user d u Hok Hin) as (Hi & Hn). rewrite Ht in Hi.
  pose proof (run_texts d user texts _ _ Hi Hn) as H. cbv zeta in H.
  destruct H as (Hi' & Hn' & _ & Hw').
  set (d' := run E d (map (fun m => (user, Text m)) texts)) in *.
  rewrite (iter_add_one _ _ Hrange) in Hn'.
  set (n' := Z.min (user_message_count u + Z.of_nat (List.length texts))
                   9223372036854775808) in *.
  assert (Hc : sqlite_add_one n' > 20 <-> c > 20).
  { subst n' c. unfold sqlite_add_one.
    destruct (Z.leb_spec (-9223372036854775808)
                (Z.min (user_message_count u + Z.of_nat (List.length texts))
                       9223372036854775808));
      destruct (Z.ltb_spec
                  (Z.min (user_message_count u + Z.of_nat (List.length texts))
                         9223372036854775808)
                  9223372036854775808);
      cbn [andb]; lia. }
  assert (Hev : c > 20 ->
                out_events o
                = [say (match select_wallet d (Some (user_id u)) with
                        | [] => "Provide your wallet address first. Use /wallet <wallet_address>."
                        | _ :: _ => "Limit reached. Send 0.001 SOL to "
                                    ++ CRYPTO_WALLET_ADDRESS E
                                    ++ " and verify using /paid."
                        end)]).
  { intros Hgt. apply Hc in Hgt.
    destruct (chat_above d' user next _ _ Hi' Hn' Hgt) as (_ & He).
    subst o. rewrite He. unfold select_wallet. rewrite Hw'. reflexivity. }
  split; [split|].
  - intros (prompt & Hcall).
    destruct (Z_le_gt_dec c 20) as [Hle|Hgt]; [exact Hle|].
    rewrite (Hev Hgt) in Hcall. destruct Hcall as [Hcall|[]]. discriminate Hcall.
  - intros Hle.
    assert (Hle' : sqlite_add_one n' <= 20) by lia.
    destruct (chat_below E d' user next _ _ Hi' Hn' Hle')
      as (d2 & d3 & _ & _ & Hchat).
    subst o. rewrite Hchat.
    destruct (generate_response E (get_user_history d3 (Some (user_id u))))
      as (answer, calls) eqn:Hg.
    assert (Hcalls : exists prompt, In (ModelCall prompt) calls).
    { unfold generate_response in Hg. injection Hg as _ <-.
      eexists. left. reflexivity. }
    destruct Hcalls as (prompt & Hcall). exists prompt.
    destruct (store_message E d3 (Some (user_id u)) answer "bot"); cbn [out_events];
      [apply in_or_app; left|]; exact Hcall.
  - intros Hgt. rewrite (Hev Hgt).
    destruct (select_wallet_rows d (user_id u)) as (Hnone & Hsome).
    split.
    + intros Hno. rewrite (Hnone Hno). reflexivity.
    + intros w Hw Hwu. pose proof (Hsome w Hw Hwu) as Hne.
      destruct (select_wallet d (Some (user_id u)));
        [exfalso; apply Hne; reflexivity | reflexivity].
Qed.

(** A text message of a registered user whose new count is at most 20
    is stored before the model is called.  The first event of the handler
    is the one model call, on the transcript of a history made of the
    user's earlier messages and this one; the messages relation keeps its
    rows and gains the row of the message, whatever the model answers.
    When the model call raises [e] the answer is ['Error: ' + str(e)];
    when the answer is a string the events are the model call and the
    reply with that string, and the messages relation grows by exactly the
    user row and the bot row carrying that string. *)
Theorem chat_answers_below_threshold (d : db) (user : tg_user)
    (user_message : string) (u : user_row) :
  ledger_ok d ->
  In u (users d) ->
  user_telegram_id u = id user ->
  sqlite_integer (user_message_count u) ->
  user_message_count u + 1 <= 20 ->
  let o := chat E d user user_message in
  let uid := Some (user_id u) in
  exists history answer,
    let prompt := String.concat LF (map (transcript_line E) history) in
    Permutation history
      (map history_entry (filter (message_of uid) (messages d))
       ++ [(Some user_message, "user")])%list
    /\ generate_response E history = (answer, [ModelCall prompt])
    /\ (out_events o = [ModelCall prompt]
        \/ out_events o = [ModelCall prompt; Reply answer None])
    /\ (exists rest,
          map columns (messages (out_db o))
          = (map columns (messages d)
             ++ (uid, Some user_message, "user") :: rest)%list)
    /\ (forall e,
          generate_content E prompt = Raise e ->
          answer = JStr ("Error: " ++ str_of_exn E e))
    /\ (forall s,
          answer = JStr s ->
          out_events o = [ModelCall prompt; Reply (JStr s) None]
          /\ map columns (messages (out_db o))
             = (map columns (messages d)
                ++ [(uid, Some user_message, "user"); (uid, Some s, "bot")])%list).
Proof.
  intros Hok Hin Ht Hrange Hle o uid.
  destruct (known_user d u Hok Hin) as (Hi & Hn). rewrite Ht in Hi.
  assert (Hle' : sqlite_add_one (user_message_count u) <= 20)
    by (rewrite (sqlite_add_one_integer _ Hrange); exact Hle).
  destruct (chat_below E d user user_message _ _ Hi Hn Hle')
    as (d2 & d3 & Hd2 & Hs3 & Hchat).
  fold uid in Hs3, Hchat.
  set (row := {| message_id :=
                   next_autoincrement (seq_messages d2)
                     (map message_id (messages d2));
                 message_user_id := uid;
                 message_text := Some user_message;
                 message_role := "user";
                 message_timestamp := current_timestamp E d2 |}).
  assert (Hm3 : messages d3 = (messages d ++ [row])%list).
  { unfold store_message in Hs3. cbn [bind_text bind] in Hs3.
    injection Hs3 as <-. cbn [messages]. subst d2. reflexivity. }
  exists (get_user_history d3 uid), (fst (generate_response E (get_user_history d3 uid))).
  cbv zeta.
  assert (Hg : generate_response E (get_user_history d3 uid)
               = (fst (generate_response E (get_user_history d3 uid)),
                  [ModelCall (String.concat LF
                                (map (transcript_line E) (get_user_history d3 uid)))]))
    by reflexivity.
  fold o in Hchat.
  destruct (generate_response E (get_user_history d3 uid)) as (answer, calls) eqn:Hgr.
  cbn [fst] in *. injection Hg as Hcalls.
  split; [|split; [|split; [|split; [|split]]]].
  - unfold get_user_history. rewrite Hm3, filter_app. cbn [filter].
    assert (Hrow : sql_eq (message_user_id row) uid = true)
      by (cbn; apply Z.eqb_refl).
    rewrite Hrow.
    apply Permutation_sym.
    eapply Permutation_trans; [|apply Permutation_map, order_by_timestamp_perm].
    rewrite map_app. reflexivity.
  - rewrite Hcalls. reflexivity.
  - rewrite Hchat.
    destruct (store_message E d3 uid answer "bot"); cbn [out_events];
      rewrite Hcalls; [right | left]; reflexivity.
  - rewrite Hchat.
    destruct (store_message E d3 uid answer "bot") as [d4|e] eqn:Hs4; cbn [out_db].
    + unfold store_message in Hs4.
      destruct (bind_text E answer) as [t|e]; cbn [bind] in Hs4; [|discriminate Hs4].
      injection Hs4 as <-. cbn [messages]. rewrite Hm3.
      exists [(uid, t, "bot")]. rewrite !map_app, <- app_assoc. reflexivity.
    + exists []. rewrite Hm3, map_app. reflexivity.
  - intros e He. unfold generate_response in Hgr. rewrite He in Hgr.
    cbn [bind] in Hgr. injection Hgr as <- _. reflexivity.
  - intros s Hs. subst answer. rewrite Hchat.
    unfold store_message. cbn [bind_text bind out_events out_db messages].
    rewrite Hcalls, Hm3. split; [reflexivity|].
    rewrite !map_app, <- app_assoc. reflexivity.
Qed.

End TextFacts.

(** ** Instances for text messages *)

Lemma ledger_ok_alice (n : Z) (bound : bool) :
  ledger_ok (demo.alice_db n bound []).
Proof.
  destruct bound; constructor; cbn; repeat constructor; intros [].
Qed.

(** Alice writes at 20 messages with a wallet bound, at 20 messages without
    a wallet, and for the first time. *)
Lemma chat_counts_then_gates_witness :
  let E := demo.world (fun _ => Ok (demo.failure 503)) demo.body_with_plan in
  (users (bot.out_db (bot.chat E (demo.alice_db 20 true []) demo.alice "hello"))
   = [ {| user_id := 1; user_telegram_id := 1001; user_name := "Alice";
          user_message_count := 21 |} ]
   /\ bot.out_events (bot.chat E (demo.alice_db 20 true []) demo.alice "hello")
      = [bot.say ("Limit reached. Send 0.001 SOL to " ++ demo.RECEIVER
                  ++ " and verify using /paid.")])
  /\ bot.out_events (bot.chat E (demo.alice_db 20 false []) demo.alice "hello")
     = [bot.say "Provide your wallet address first. Use /wallet <wallet_address>."]
  /\ users (bot.out_db (bot.chat E demo.empty_db demo.alice "hello"))
     = [ {| user_id := 1; user_telegram_id := 1001; user_name := "Alice";
            user_message_count := 1 |} ].
Proof.
  cbv zeta.
  pose (E := demo.world (fun _ => Ok (demo.failure 503)) demo.body_with_plan).
  pose (row := {| user_id := 1; user_telegram_id := 1001; user_name := "Alice";
                  user_message_count := 20 |}).
  assert (Hgt : bot.sqlite_add_one (user_message_count row) > 20) by (cbn; lia).
  split; [|split].
  - destruct (proj1 (chat_counts_then_gates E (demo.alice_db 20 true []) demo.alice
                       "hello" (ledger_ok_alice 20 true))
                row (or_introl eq_refl) eq_refl)
      as (_ & Hu & Habove & _).
    destruct (Habove Hgt) as (_ & _ & _ & _ & _ & Hpay).
    split; [exact Hu|].
    exact (Hpay {| wallet_id := 1; wallet_user_id := Some 1;
                   wallet_address := demo.SENDER |}
             (or_introl eq_refl) eq_refl).
  - destruct (proj1 (chat_counts_then_gates E (demo.alice_db 20 false []) demo.alice
                       "hello" (ledger_ok_alice 20 false))
                row (or_introl eq_refl) eq_refl)
      as (_ & _ & Habove & _).
    destruct (Habove Hgt) as (_ & _ & _ & _ & Hbind & _).
    apply Hbind. intros w [].
  - destruct (proj2 (chat_counts_then_gates E demo.empty_db demo.alice "hello"
                       ledger_ok_empty))
      as (Hu & _).
    + intros r [].
    + exact Hu.
Defined.

(** Three messages of Alice from a count of 19, and two from the largest
    INTEGER. *)
Lemma texts_are_all_counted_witness :
  let E := demo.world (fun _ => Ok (demo.failure 503)) demo.body_with_plan in
  users (bot.run E (demo.alice_db 19 false [])
           [(demo.alice, bot.Text "a"); (demo.alice, bot.Text "b");
            (demo.alice, bot.Text "c")])
  = [ {| user_id := 1; user_telegram_id := 1001; user_name := "Alice";
         user_message_count := 22 |} ]
  /\ users (bot.run E (demo.alice_db 9223372036854775807 true [])
              [(demo.alice, bot.Text "a"); (demo.alice, bot.Text "b")])
     = [ {| user_id := 1; user_telegram_id := 1001; user_name := "Alice";
            user_message_count := 9223372036854775808 |} ].
Proof.
  cbv zeta. split.
  - refine (texts_are_all_counted
              (demo.world (fun _ => Ok (demo.failure 503)) demo.body_with_plan)
              (demo.alice_db 19 false []) demo.alice ["a"; "b"; "c"]
              {| user_id := 1; user_telegram_id := 1001; user_name := "Alice";
                 user_message_count := 19 |}
              (ledger_ok_alice 19 false) (or_introl eq_refl) eq_refl _).
    cbn. lia.
  - refine (texts_are_all_counted
              (demo.world (fun _ => Ok (demo.failure 503)) demo.body_with_plan)
              (demo.alice_db 9223372036854775807 true []) demo.alice ["a"; "b"]
              {| user_id := 1; user_telegram_id := 1001; user_name := "Alice";
                 user_message_count := 9223372036854775807 |}
              (ledger_ok_alice 9223372036854775807 true) (or_introl eq_refl)
              eq_refl _).
    cbn. lia.
Defined.

(** Alice's twentieth message is answered; her twenty-first, with a wallet
    bound, is met with the payment instructions. *)
Lemma model_is_called_up_to_twenty_witness :
  let E := demo.world (fun _ => Ok (demo.failure 503)) demo.body_with_plan in
  (exists prompt,
     In (bot.ModelCall prompt)
        (bot.out_events
           (bot.chat E
              (bot.run E (demo.alice_db 0 false [])
                 (map (fun m => (demo.alice, bot.Text m)) (repeat "again" 19)))
              demo.alice "last")))
  /\ bot.out_events
       (bot.chat E
          (bot.run E (demo.alice_db 0 true [])
             (map (fun m => (demo.alice, bot.Text m)) (repeat "again" 20)))
          demo.alice "last")
     = [bot.say ("Limit reached. Send 0.001 SOL to " ++ demo.RECEIVER
                 ++ " and verify using /paid.")].
Proof.
  cbv zeta.
  pose (E := demo.world (fun _ => Ok (demo.failure 503)) demo.body_with_plan).
  pose (row := {| user_id := 1; user_telegram_id := 1001; user_name := "Alice";
                  user_message_count := 0 |}).
  assert (Hrange : -9223372036854775808 <= user_message_count row
                   <= 9223372036854775808) by (cbn; lia).
  split.
  - apply (proj2 (proj1 (model_is_called_up_to_twenty E (demo.alice_db 0 false [])
                           demo.alice (repeat "again" 19) "last" row
                           (ledger_ok_alice 0 false) (or_introl eq_refl) eq_refl
                           Hrange))).
    cbn. lia.
  - destruct (proj2 (model_is_called_up_to_twenty E (demo.alice_db 0 true [])
                       demo.alice (repeat "again" 20) "last" row
                       (ledger_ok_alice 0 true) (or_introl eq_refl) eq_refl
                       Hrange))
      as (_ & Hpay).
    + cbn. lia.
    + exact (Hpay {| wallet_id := 1; wallet_user_id := Some 1;
                     wallet_address := demo.SENDER |}
               (or_introl eq_refl) eq_refl).
Defined.

(** Alice's fifth message. *)
Lemma chat_answers_below_threshold_witness :
  let E := demo.world (fun _ => Ok (demo.failure 503)) demo.body_with_plan in
  let o := bot.chat E (demo.alice_db 4 false []) demo.alice "hello" in
  exists history answer,
    Permutation history [(Some "hello", "user")]
    /\ (bot.out_events o
        = [bot.ModelCall (String.concat LF (map (bot.transcript_line E) history))]
        \/ bot.out_events o
           = [bot.ModelCall (String.concat LF (map (bot.transcript_line E) history));
              bot.Reply answer None]).
Proof.
  cbv zeta.
  pose (E := demo.world (fun _ => Ok (demo.failure 503)) demo.body_with_plan).
  pose (row := {| user_id := 1; user_telegram_id := 1001; user_name := "Alice";
                  user_message_count := 4 |}).
  destruct (chat_answers_below_threshold E (demo.alice_db 4 false []) demo.alice
              "hello" row (ledger_ok_alice 4 false) (or_introl eq_refl) eq_refl)
    as (history & answer & Hperm & _ & Hev & _).
  - unfold sqlite_integer. cbn. lia.
  - cbn. lia.
  - exists history, answer. split; [exact Hperm | exact Hev].
Defined.
